(** * PIDWS alarm dashboard: the data pipeline of [app.py]

    A shallow embedding of the ingestion, classification, filtering,
    aggregation and export code of [app.py], and the properties of the
    specification proved (or refuted) on it.

    Conventions.
    - A pandas cell is an [option]: [None] is the null value (NaN, None or
      NaT), for which [pd.isnull] holds.
    - A row of [df_raw] is a record whose fields are the columns the program
      reads; the derived columns ([Date], [Hour], [Alarm Type], [Verified])
      are stored fields filled in by [preprocess], as the program stores them.
    - Exceptions are the [inl] side of a sum. *)

From Stdlib Require Import ZArith List Bool Ascii String Lia.
From Stdlib Require Import DecimalString Sorted.
Import ListNotations.
Open Scope string_scope.
Open Scope Z_scope.

Set Implicit Arguments.

(** ** Python values *)

(** [datetime.time]: the tuple (hour, minute, second, microsecond). *)
Record time := mk_time {
  hour : Z;
  minute : Z;
  second : Z;
  microsecond : Z
}.

(** [datetime.date]: the tuple (year, month, day). *)
Record date := mk_date {
  year : Z;
  month : Z;
  day : Z
}.

(** [pandas.Timestamp]: a calendar date, a time of day and the nanoseconds
    below the microsecond. *)
Record Timestamp := mk_Timestamp {
  ts_date : date;
  ts_time : time;
  nanosecond : Z
}.

(** [time(h, m)]: seconds and microseconds default to zero. *)
Definition time_hm (h m : Z) : time := mk_time h m 0 0.

(** Python compares [time] objects as the tuples of their fields. *)
Definition time_compare (a b : time) : comparison :=
  match hour a ?= hour b with
  | Eq =>
      match minute a ?= minute b with
      | Eq =>
          match second a ?= second b with
          | Eq => microsecond a ?= microsecond b
          | c => c
          end
      | c => c
      end
  | c => c
  end.

Definition time_le (a b : time) : bool :=
  match time_compare a b with Gt => false | _ => true end.

(** Python compares [date] objects as the tuples of their fields. *)
Definition date_compare (a b : date) : comparison :=
  match year a ?= year b with
  | Eq =>
      match month a ?= month b with
      | Eq => day a ?= day b
      | c => c
      end
  | c => c
  end.

Definition date_le (a b : date) : bool :=
  match date_compare a b with Gt => false | _ => true end.

Definition date_eqb (a b : date) : bool :=
  match date_compare a b with Eq => true | _ => false end.

(** [Timestamp.time()], [Series.dt.date], [Series.dt.hour].  The time of
    day [time()] returns is a [datetime.time]: it has microseconds and leaves
    the nanoseconds out. *)
Definition Timestamp_time (t : Timestamp) : time := ts_time t.
Definition Timestamp_date (t : Timestamp) : date := ts_date t.
Definition Timestamp_hour (t : Timestamp) : Z := hour (ts_time t).

(** The values the constructors of [datetime] accept. *)
Definition valid_time (t : time) : Prop :=
  0 <= hour t < 24 /\ 0 <= minute t < 60 /\ 0 <= second t < 60 /\
  0 <= microsecond t < 1000000.

(** pandas timestamps lie between the years 1677 and 2262. *)
Definition valid_date (d : date) : Prop :=
  1677 <= year d <= 2262 /\ 1 <= month d <= 12 /\ 1 <= day d <= 31.

Definition valid_Timestamp (t : Timestamp) : Prop :=
  valid_date (ts_date t) /\ valid_time (ts_time t) /\ 0 <= nanosecond t < 1000.

(** Microseconds since midnight of a time of day. *)
Definition micros_of_day (t : time) : Z :=
  ((hour t * 60 + minute t) * 60 + second t) * 1000000 + microsecond t.

(** A non-null spreadsheet cell.  A float is identified with its Python
    [repr], which is one-to-one on floats and is the only thing the program
    asks of a float cell. *)
Inductive cell :=
| CStr (s : string)
| CInt (z : Z)
| CFloat (repr : string).

(** What a spreadsheet cell or an output record holds: text, a number or a
    timestamp. *)
Inductive value :=
| VCell (c : cell)
| VTimestamp (t : Timestamp).

Definition notnull {A} (c : option A) : bool :=
  match c with Some _ => true | None => false end.

Definition isnull {A} (c : option A) : bool := negb (notnull c).

(** ** Preprocessing: the derived columns *)

(** A row of [df_raw] after the rename of ['LPG . No.'] to ['Chainage'] and
    [pd.to_datetime(..., errors='coerce')] on ['Alert Time']. *)
Record RawRow := mk_RawRow {
  Section_ : option string;
  Chainage : option cell;
  Alert_Type_Severity : option cell;
  Alert_Time : option Timestamp;
  Alert_Duration : option cell;
  Event_Type : option cell;
  Latitude : option cell;
  Longitude : option cell;
  Resolution_remarks : option cell;
  Resolution_remarks_Day_Guard : option cell
}.

Definition classify_alarm_type (t : option Timestamp) : string :=
  match t with
  | None => "Unknown"
  | Some t =>
      if time_le (time_hm 6 0) (Timestamp_time t) &&
         time_le (Timestamp_time t) (time_hm 22 0)
      then "Day"
      else "Night"
  end.

(** [df[[c1, c2]].notnull().any(axis=1)] on one row. *)
Definition notnull_any (cs : list (option cell)) : bool :=
  existsb notnull cs.

Record Row := mk_Row {
  raw : RawRow;
  Date : option date;
  Hour : option Z;
  Alarm_Type : string;
  Verified : bool
}.

Definition preprocess (r : RawRow) : Row :=
  {| raw := r;
     Date := option_map Timestamp_date (Alert_Time r);
     Hour := option_map Timestamp_hour (Alert_Time r);
     Alarm_Type := classify_alarm_type (Alert_Time r);
     Verified :=
       notnull_any [Resolution_remarks r; Resolution_remarks_Day_Guard r] |}.

(** ** pandas operations on a column *)

(** [series >= v] and [series <= v] on an object column of dates: a null
    element compares [False], it does not raise. *)
Definition Series_ge (x : option date) (v : date) : bool :=
  match x with
  | None => false
  | Some d => date_le v d
  end.

Definition Series_le (x : option date) (v : date) : bool :=
  match x with
  | None => false
  | Some d => date_le d v
  end.

(** [series == v] on a column of text. *)
Definition Series_eq (x : option string) (v : string) : bool :=
  match x with
  | None => false
  | Some s => String.eqb s v
  end.

(** ['count']: the number of non-null elements. *)
Fixpoint Series_count {A} (xs : list (option A)) : Z :=
  match xs with
  | [] => 0
  | x :: xs' => (if notnull x then 1 else 0) + Series_count xs'
  end.

(** [x.sum()] on a boolean column: [True] counts 1. *)
Fixpoint Series_sum (xs : list bool) : Z :=
  match xs with
  | [] => 0
  | x :: xs' => (if x then 1 else 0) + Series_sum xs'
  end.

(** [~x] on a boolean column. *)
Definition Series_invert (xs : list bool) : list bool := map negb xs.

(** ** The filter of the callbacks *)

(** The boolean mask of [update_alarm_count_graph] and [update_verify_graph].
    [start_date] and [end_date] are the calendar dates
    [pd.to_datetime(...).date()] reads from the date picker. *)
Definition mask (alarm_type : string) (start_date end_date : date)
    (section : string) (r : Row) : bool :=
  String.eqb (Alarm_Type r) alarm_type &&
  Series_ge (Date r) start_date &&
  Series_le (Date r) end_date &&
  Series_eq (Section_ (raw r)) section.

Definition filtered_rows (df_raw : list Row) (alarm_type : string)
    (start_date end_date : date) (section : string) : list Row :=
  filter (mask alarm_type start_date end_date section) df_raw.

(** ** update_alarm_count_graph *)

(** A sample on the x axis of a histogram. *)
Inductive axis_value :=
| AHour (h : Z)
| ADate (d : date).

(** The figure [px.histogram] builds: the column on the x axis, its samples,
    the requested number of bins, the title, and the tick format set by
    [update_layout]. *)
Record Figure := mk_Figure {
  x : string;
  samples : list (option axis_value);
  nbins : option Z;
  title : string;
  xaxis_tickformat : option string
}.

Definition update_alarm_count_graph (df_raw : list Row) (alarm_type : string)
    (start_date end_date : date) (section : string) : Figure :=
  let filtered := filtered_rows df_raw alarm_type start_date end_date section in
  if date_eqb start_date end_date then
    {| x := "Hour";
       samples := map (fun r => option_map AHour (Hour r)) filtered;
       nbins := Some 24;
       title := "Alarms Distribution by Hour";
       xaxis_tickformat := None |}
  else
    {| x := "Date";
       samples := map (fun r => option_map ADate (Date r)) filtered;
       nbins := None;
       title := "Alarms Distribution by Date";
       xaxis_tickformat := Some "%d-%m-%Y" |}.

(** ** update_verify_graph *)

(** The keys of [groupby('Date')]: the distinct non-null dates, ascending. *)
Fixpoint insert_key (d : date) (keys : list date) : list date :=
  match keys with
  | [] => [d]
  | k :: keys' =>
      match date_compare d k with
      | Lt => d :: keys
      | Eq => keys
      | Gt => k :: insert_key d keys'
      end
  end.

Fixpoint group_keys (df : list Row) : list date :=
  match df with
  | [] => []
  | r :: df' =>
      match Date r with
      | Some d => insert_key d (group_keys df')
      | None => group_keys df'
      end
  end.

Definition in_group (d : date) (r : Row) : bool :=
  match Date r with
  | Some d' => date_eqb d' d
  | None => false
  end.

Definition groupby_Date (df : list Row) : list (date * list Row) :=
  map (fun d => (d, filter (in_group d) df)) (group_keys df).

(** A row of [summary] after [reset_index()]. *)
Record SummaryRow := mk_SummaryRow {
  summary_Date : date;
  total_alarms : Z;
  verified : Z;
  unverified : Z
}.

Definition agg (g : date * list Row) : SummaryRow :=
  {| summary_Date := fst g;
     total_alarms := Series_count (map (fun r => Alert_Time (raw r)) (snd g));
     verified := Series_sum (map Verified (snd g));
     unverified := Series_sum (Series_invert (map Verified (snd g))) |}.

Definition verify_summary (df_raw : list Row) (alarm_type : string)
    (start_date end_date : date) (section : string) : list SummaryRow :=
  let filtered := filtered_rows df_raw alarm_type start_date end_date section in
  map agg (groupby_Date filtered).

(** The bar chart over [summary]. *)
Record BarFigure := mk_BarFigure {
  bar_data : list SummaryRow;
  bar_x : string;
  bar_y : list string;
  bar_title : string
}.

Definition update_verify_graph (df_raw : list Row) (alarm_type : string)
    (start_date end_date : date) (section : string) : BarFigure :=
  {| bar_data := verify_summary df_raw alarm_type start_date end_date section;
     bar_x := "Date";
     bar_y := ["total_alarms"; "verified"; "unverified"];
     bar_title := "Alarm Verification Status" |}.

(** ** update_unverified_table *)

(** [str(n)] for an integer. *)
Definition str_of_Z (z : Z) : string := NilZero.string_of_int (Z.to_int z).

(** What an f-string writes for a cell: the text itself, the decimal
    numeral of an integer, the [repr] of a float. *)
Definition py_str (c : cell) : string :=
  match c with
  | CStr s => s
  | CInt z => str_of_Z z
  | CFloat repr => repr
  end.

(** The formatting of [{row['Latitude']}] when the cell is null: NaN. *)
Definition py_format (c : option cell) : string :=
  match c with
  | Some c => py_str c
  | None => "nan"
  end.

(** The mask of [update_unverified_table]: the four conditions and
    [~df_raw['Verified']]. *)
Definition mask_unverified (alarm_type : string) (start_date end_date : date)
    (section : string) (r : Row) : bool :=
  String.eqb (Alarm_Type r) alarm_type &&
  Series_ge (Date r) start_date &&
  Series_le (Date r) end_date &&
  Series_eq (Section_ (raw r)) section &&
  negb (Verified r).

(** [dropna(subset=['Chainage', 'Latitude', 'Longitude'])]: a row stays when
    none of the three is null. *)
Definition dropna_subset (df : list Row) : list Row :=
  filter (fun r => notnull (Chainage (raw r)) &&
                   notnull (Latitude (raw r)) &&
                   notnull (Longitude (raw r))) df.

(** The lambda of [filtered.apply(..., axis=1)]. *)
Definition Location (r : Row) : string :=
  "[📍](https://www.google.com/maps?q=" ++ py_format (Latitude (raw r)) ++ "," ++
  py_format (Longitude (raw r)) ++ "&t=k)".

(** A record of [to_dict('records')]: the columns in order, each with its
    value. *)
Definition record := list (string * option value).

Definition table_record (r : Row) : record :=
  [ ("Section", option_map (fun s => VCell (CStr s)) (Section_ (raw r)));
    ("Chainage", option_map VCell (Chainage (raw r)));
    ("Alert Type/Severity", option_map VCell (Alert_Type_Severity (raw r)));
    ("Alert Time", option_map VTimestamp (Alert_Time (raw r)));
    ("Alert Duration(HH:MM:SS)", option_map VCell (Alert_Duration (raw r)));
    ("Event Type", option_map VCell (Event_Type (raw r)));
    ("Location", Some (VCell (CStr (Location r)))) ].

Definition update_unverified_table (df_raw : list Row) (alarm_type : string)
    (start_date end_date : date) (section : string) : list record :=
  let filtered :=
    filter (mask_unverified alarm_type start_date end_date section) df_raw in
  let filtered := dropna_subset filtered in
  map table_record filtered.

(** ** download_unverified_excel *)

(** [str.replace(old, new)] for one-character [old] and [new]. *)
Fixpoint str_replace (old new : ascii) (s : string) : string :=
  match s with
  | EmptyString => EmptyString
  | String c s' =>
      String (if Ascii.eqb c old then new else c) (str_replace old new s')
  end.

(** [%d] and [%m]: the decimal numeral, padded with a zero to two digits. *)
Definition zero_padded2 (z : Z) : string :=
  let s := str_of_Z z in
  if (String.length s <? 2)%nat then "0" ++ s else s.

(** [strftime('%d-%m-%Y')]. *)
Definition strftime_dmY (d : date) : string :=
  zero_padded2 (day d) ++ "-" ++ zero_padded2 (month d) ++ "-" ++
  str_of_Z (year d).

(** One sheet written by [to_excel(writer, index=False, sheet_name=...)]:
    the header row and the data rows. *)
Record Sheet := mk_Sheet {
  sheet_name : string;
  header : list string;
  sheet_rows : list (list (option value))
}.

(** What [dcc.send_bytes] returns: the workbook (here as its sheets, not as
    the bytes of the file) and the file name. *)
Record Download := mk_Download {
  content : list Sheet;
  filename : string
}.

Definition download_columns : list string :=
  ["Section"; "Chainage"; "Alert Type/Severity"; "Alert Time";
   "Alert Duration(HH:MM:SS)"; "Event Type"; "Latitude"; "Longitude"].

Definition download_row (r : Row) : list (option value) :=
  [ option_map (fun s => VCell (CStr s)) (Section_ (raw r));
    option_map VCell (Chainage (raw r));
    option_map VCell (Alert_Type_Severity (raw r));
    option_map VTimestamp (Alert_Time (raw r));
    option_map VCell (Alert_Duration (raw r));
    option_map VCell (Event_Type (raw r));
    option_map VCell (Latitude (raw r));
    option_map VCell (Longitude (raw r)) ].

(** [triggered_id] is [ctx.triggered_id]: the id of the component whose
    change fired the callback, if any. *)
Definition download_unverified_excel (df_raw : list Row)
    (triggered_id : option string) (n_clicks : Z) (alarm_type : string)
    (start_date end_date : date) (section : string) : option Download :=
  if negb (match triggered_id with
           | Some i => String.eqb i "download-excel-btn"
           | None => false
           end)
  then None
  else
    let filtered :=
      filter (fun r =>
                String.eqb (Alarm_Type r) alarm_type &&
                Series_ge (Date r) start_date &&
                Series_le (Date r) end_date &&
                Series_eq (Section_ (raw r)) section &&
                negb (Verified r)) df_raw in
    let filtered := dropna_subset filtered in
    let download_df := map download_row filtered in
    let output :=
      [ {| sheet_name := "Unverified Alarms";
           header := download_columns;
           sheet_rows := download_df |} ] in
    let section_clean := str_replace " " "_" section in
    let start_str := strftime_dmY start_date in
    let end_str := strftime_dmY end_date in
    let filename :=
      section_clean ++ "_" ++ start_str ++ "_to_" ++ end_str ++
      "_unverified_" ++ alarm_type ++ "_alarms.xlsx" in
    Some {| content := output; filename := filename |}.

(** ** load_all_excels *)

Inductive exn :=
| ReadError (file : string)
| ValueError (msg : string)
| InvalidIndexError (msg : string).

(** A data frame as [pd.read_excel] returns it: the column labels and the
    rows, each row with one cell per column. *)
Record DataFrame := mk_DataFrame {
  columns : list string;
  data : list (list (option value))
}.

(** An entry of the directory: its name, and what [pd.read_excel] makes of
    it ([None] when it raises). *)
Record File := mk_File {
  name : string;
  read_excel : option DataFrame
}.

(** [fnmatch] for a pattern of literal characters, [?] and [*]. *)
Fixpoint fnmatch (pat : list ascii) (s : list ascii) : bool :=
  match pat with
  | [] => match s with [] => true | _ :: _ => false end
  | p :: pat' =>
      if Ascii.eqb p "*" then
        (fix star (s : list ascii) : bool :=
           fnmatch pat' s ||
           match s with
           | [] => false
           | _ :: s' => star s'
           end) s
      else
        match s with
        | [] => false
        | c :: s' => (Ascii.eqb p "?" || Ascii.eqb p c) && fnmatch pat' s'
        end
  end.

Definition startswith (s p : string) : bool := String.prefix p s.

(** [glob.glob(folder_path + "/*.xlsx")]: the entries of the directory that
    match the pattern; a name with a leading dot is hidden from a pattern
    that has none.  The entries stand for their paths: the basename of
    [folder_path + "/" + name] is [name]. *)
Definition glob_xlsx (dir : list File) : list File :=
  filter (fun f => negb (startswith (name f) ".") &&
                   fnmatch (list_ascii_of_string "*.xlsx")
                           (list_ascii_of_string (name f))) dir.

Definition valid_files (dir : list File) : list File :=
  filter (fun f => negb (startswith (name f) "~$")) (glob_xlsx dir).

(** [str.isspace] on the ASCII characters: tab to carriage return, the
    four separators and the space. *)
Definition is_space (c : ascii) : bool :=
  let n := N_of_ascii c in
  (((9 <=? n) && (n <=? 13)) || ((28 <=? n) && (n <=? 32)))%N.

Fixpoint lstrip (s : string) : string :=
  match s with
  | EmptyString => EmptyString
  | String c s' => if is_space c then lstrip s' else s
  end.

Fixpoint rstrip (s : string) : string :=
  match s with
  | EmptyString => EmptyString
  | String c s' =>
      match rstrip s' with
      | EmptyString => if is_space c then EmptyString else String c EmptyString
      | r => String c r
      end
  end.

Definition strip (s : string) : string := rstrip (lstrip s).

(** [df.dropna(how='all')]: a row goes when all its cells are null. *)
Definition dropna_all (df : DataFrame) : DataFrame :=
  {| columns := columns df;
     data := filter (existsb notnull) (data df) |}.

(** [df.empty]: an axis of length zero. *)
Definition empty (df : DataFrame) : bool :=
  match columns df, data df with
  | [], _ => true
  | _, [] => true
  | _, _ => false
  end.

(** The union of the column labels, in order of first appearance. *)
Fixpoint add_columns (acc cols : list string) : list string :=
  match cols with
  | [] => acc
  | c :: cols' =>
      if existsb (String.eqb c) acc then add_columns acc cols'
      else add_columns (acc ++ [c]) cols'
  end.

Definition union_columns (dfs : list DataFrame) : list string :=
  fold_left (fun acc df => add_columns acc (columns df)) dfs [].

Fixpoint lookup_cell (c : string) (labels : list string)
    (row : list (option value)) : option value :=
  match labels, row with
  | l :: labels', v :: row' =>
      if String.eqb l c then v else lookup_cell c labels' row'
  | _, _ => None
  end.

(** A row of [df] under the labels [cols]: a column [df] lacks is null. *)
Definition reindex (cols : list string) (df : DataFrame)
    (row : list (option value)) : list (option value) :=
  map (fun c => lookup_cell c (columns df) row) cols.

(** [Index.equals]: the same labels in the same order. *)
Fixpoint labels_eqb (a b : list string) : bool :=
  match a, b with
  | [], [] => true
  | x :: a', y :: b' => String.eqb x y && labels_eqb a' b'
  | _, _ => false
  end.

(** [not Index.is_unique]: a label occurs twice. *)
Fixpoint has_duplicates (labels : list string) : bool :=
  match labels with
  | [] => false
  | l :: labels' => existsb (String.eqb l) labels' || has_duplicates labels'
  end.

(** The rows of [df] under the labels [cols] of the result: a frame that has
    these labels already is taken as it is, any other is reindexed. *)
Definition aligned_rows (cols : list string) (df : DataFrame)
    : list (list (option value)) :=
  if labels_eqb (columns df) cols then data df
  else map (reindex cols df) (data df).

(** [pd.concat(df_list, ignore_index=True)].  It raises on an empty list.
    Frames that all carry the same labels are stacked as they are, repeated
    labels included.  Otherwise the labels of the result are the union of
    the labels, and a frame with a repeated label cannot be reindexed to
    them: [Index.get_indexer] raises InvalidIndexError.  Cells are carried
    over as they are; pandas also turns an integer column into floats when
    nulls join it, which this model of cells does not follow. *)
Definition concat (df_list : list DataFrame) : exn + DataFrame :=
  match df_list with
  | [] => inl (ValueError "No objects to concatenate")
  | df :: rest =>
      if forallb (fun df' => labels_eqb (columns df') (columns df)) rest then
        inr {| columns := columns df; data := flat_map data df_list |}
      else if existsb (fun df' => has_duplicates (columns df')) df_list then
        inl (InvalidIndexError
               "Reindexing only valid with uniquely valued Index objects")
      else
        let cols := union_columns df_list in
        inr {| columns := cols;
               data := flat_map (aligned_rows cols) df_list |}
  end.

(** The loop of [load_all_excels]: [df_list] after the files [files], or the
    exception of the first file that cannot be read. *)
Fixpoint read_files (files : list File) (df_list : list DataFrame)
    : exn + list DataFrame :=
  match files with
  | [] => inr df_list
  | file :: files' =>
      match read_excel file with
      | None => inl (ReadError (name file))
      | Some df =>
          let df := {| columns := map strip (columns df); data := data df |} in
          if negb (empty (dropna_all df))
          then read_files files' (df_list ++ [df])
          else read_files files' df_list
      end
  end.

Definition load_all_excels (folder : list File) : exn + DataFrame :=
  match read_files (valid_files folder) [] with
  | inl e => inl e
  | inr df_list => concat df_list
  end.

(** ** The unique values and the dropdowns *)

(** [series.dropna()]. *)
Fixpoint dropna {A} (xs : list (option A)) : list A :=
  match xs with
  | [] => []
  | Some a :: xs' => a :: dropna xs'
  | None :: xs' => dropna xs'
  end.

(** [series.unique()]: the values in order of first appearance, each once.
    [seen] holds the values met so far. *)
Fixpoint unique_seen (seen xs : list string) : list string :=
  match xs with
  | [] => []
  | a :: xs' =>
      if existsb (String.eqb a) seen then unique_seen seen xs'
      else a :: unique_seen (a :: seen) xs'
  end.

Definition unique (xs : list string) : list string := unique_seen [] xs.

(** [sections = df_raw['Section'].dropna().unique()]. *)
Definition sections (df_raw : list Row) : list string :=
  unique (dropna (map (fun r => Section_ (raw r)) df_raw)).

(** The options of the alarm-type dropdown. *)
Definition alarm_type_options : list string := ["Day"; "Night"].

(** [sections[0]], the value the section dropdown starts with; [None] is
    the IndexError of an empty array. *)
Definition section_default (df_raw : list Row) : option string :=
  nth_error (sections df_raw) 0.

(** * Notions of the specification *)

(** The calendar order: [a] is the day [b] or an earlier one. *)
Definition on_or_before (a b : date) : Prop :=
  year a < year b \/
  (year a = year b /\
   (month a < month b \/ (month a = month b /\ day a <= day b))).

(** [time(h, m, s)]. *)
Definition time_hms (h m s : Z) : time := mk_time h m s 0.

(** The closed interval [06:00:00, 22:00:00] of times of day, in
    microseconds since midnight. *)
Definition in_day_window (t : time) : Prop :=
  micros_of_day (time_hms 6 0 0) <= micros_of_day t <=
  micros_of_day (time_hms 22 0 0).

(** [digit n] is the character of the decimal digit [n]. *)
Definition digit (n : Z) : ascii := ascii_of_N (48 + Z.to_N n).

(** A date written DD-MM-YYYY: two digits, a dash, two digits, a dash, four
    digits. *)
Definition DD_MM_YYYY (d : date) : string :=
  String (digit (day d / 10)) (String (digit (day d mod 10)) (String "-"
  (String (digit (month d / 10)) (String (digit (month d mod 10)) (String "-"
  (String (digit (year d / 1000)) (String (digit (year d / 100 mod 10))
  (String (digit (year d / 10 mod 10)) (String (digit (year d mod 10))
  EmptyString))))))))).

(** The map URL of the specification for a row's coordinates. *)
Definition maps_url (r : Row) : string :=
  "https://www.google.com/maps?q=" ++ py_format (Latitude (raw r)) ++ "," ++
  py_format (Longitude (raw r)) ++ "&t=k".

(** The value of a column in a record. *)
Fixpoint record_get (c : string) (rec : record) : option (option value) :=
  match rec with
  | [] => None
  | (k, v) :: rec' => if String.eqb k c then Some v else record_get c rec'
  end.

(** A call raises. *)
Definition raises {A} (r : exn + A) : Prop := exists e, r = inl e.

(** A frame has one cell per column in every row. *)
Definition well_formed (df : DataFrame) : Prop :=
  Forall (fun row => List.length row = List.length (columns df)) (data df).

(** The parsed content is entirely empty: no row has a non-null cell. *)
Definition entirely_empty (df : DataFrame) : Prop :=
  forall row, In row (data df) -> forall c, In c row -> c = None.

Definition has_content (df : DataFrame) : bool :=
  existsb (existsb notnull) (data df).

(** Two of the frames carry different labels. *)
Definition labels_differ (dfs : list DataFrame) : Prop :=
  exists df1 df2, In df1 dfs /\ In df2 dfs /\ columns df1 <> columns df2.

(** One of the frames carries a label twice. *)
Definition repeated_label (dfs : list DataFrame) : Prop :=
  exists df, In df dfs /\ ~ NoDup (columns df).

(** The labels of a frame stripped, as [load_all_excels] does on reading. *)
Definition strip_columns (df : DataFrame) : DataFrame :=
  {| columns := map strip (columns df); data := data df |}.

(** The frames of the files that have content, with stripped labels, in the
    order of the files. *)
Definition contentful (files : list File) : list DataFrame :=
  flat_map (fun f =>
              match read_excel f with
              | Some df =>
                  if has_content df then [strip_columns df] else []
              | None => []
              end) files.

(** The seven columns of the on-screen table, in order. *)
Definition table_columns : list string :=
  ["Section"; "Chainage"; "Alert Type/Severity"; "Alert Time";
   "Alert Duration(HH:MM:SS)"; "Event Type"; "Location"].

(** An unverified event that has a chainage and both coordinates. *)
Definition unverified_located (r : Row) : bool :=
  negb (Verified r) && notnull (Chainage (raw r)) &&
  notnull (Latitude (raw r)) && notnull (Longitude (raw r)).

(** The integers [lo], [lo + 1], ..., [lo + len - 1]. *)
Definition Z_range (lo : Z) (len : nat) : list Z :=
  map (fun i => lo + Z.of_nat i) (seq 0 len).

(** A space becomes an underscore, every other character stays. *)
Definition space_to_underscore (c : ascii) : ascii :=
  if Ascii.eqb c " " then "_"%char else c.

Definition export_button : string := "download-excel-btn".

Definition axis_value_eqb (a b : axis_value) : bool :=
  match a, b with
  | AHour h, AHour k => h =? k
  | ADate d, ADate e => date_eqb d e
  | _, _ => false
  end.

(** The count of the bucket of [v] in a histogram over the samples [xs]:
    the number of samples equal to [v].  The program hands the samples to
    the plotting library, which draws the bars; a null sample is in no
    bucket. *)
Fixpoint bar_height (xs : list (option axis_value)) (v : axis_value) : Z :=
  match xs with
  | [] => 0
  | Some a :: xs' => (if axis_value_eqb a v then 1 else 0) + bar_height xs' v
  | None :: xs' => bar_height xs' v
  end.

(** An event of hour [h]. *)
Definition at_hour (h : Z) (r : Row) : bool :=
  match Hour r with
  | Some k => k =? h
  | None => false
  end.

(** The sum of a list of counts. *)
Definition total (counts : list Z) : Z := fold_right Z.add 0 counts.

(** The 24 hours of the day. *)
Definition hours : list Z := Z_range 0 24.

Definition valid_alert_time (r : RawRow) : Prop :=
  forall t, Alert_Time r = Some t -> valid_time (Timestamp_time t).

(** A file [pd.read_excel] cannot read. *)
Definition unreadable (f : File) : bool := isnull (read_excel f).

Definition xlsx_suffix : list ascii := list_ascii_of_string ".xlsx".

(** * Sample data *)

Definition jan_1_2024 : date := mk_date 2024 1 1.
Definition jan_2_2024 : date := mk_date 2024 1 2.

Definition at_time (d : date) (h m s : Z) : Timestamp :=
  mk_Timestamp d (time_hms h m s) 0.

(** An unverified alarm of section A with coordinates 10, 20. *)
Definition alarm_at (t : option Timestamp) : RawRow :=
  {| Section_ := Some "A";
     Chainage := Some (CStr "12+300");
     Alert_Type_Severity := Some (CStr "Digging/High");
     Alert_Time := t;
     Alert_Duration := Some (CStr "00:01:30");
     Event_Type := Some (CStr "Intrusion");
     Latitude := Some (CInt 10);
     Longitude := Some (CInt 20);
     Resolution_remarks := None;
     Resolution_remarks_Day_Guard := None |}.

Definition alarm_0700 : RawRow := alarm_at (Some (at_time jan_1_2024 7 0 0)).
Definition alarm_0500 : RawRow := alarm_at (Some (at_time jan_1_2024 5 0 0)).
Definition alarm_0530 : RawRow := alarm_at (Some (at_time jan_1_2024 5 30 0)).

(** The alarm of 05:30 with a resolution remark of the day guard. *)
Definition alarm_0530_resolved : RawRow :=
  {| Section_ := Some "A";
     Chainage := Some (CStr "12+300");
     Alert_Type_Severity := Some (CStr "Digging/High");
     Alert_Time := Some (at_time jan_1_2024 5 30 0);
     Alert_Duration := Some (CStr "00:01:30");
     Event_Type := Some (CStr "Intrusion");
     Latitude := Some (CInt 10);
     Longitude := None;
     Resolution_remarks := None;
     Resolution_remarks_Day_Guard := Some (CStr "patrol sent 05:40") |}.

(** A workbook with a header row and no data row. *)
Definition header_only : DataFrame :=
  {| columns := ["Section"; " Alert Time "]; data := [] |}.

Definition one_alarm : DataFrame :=
  {| columns := ["Section"; " Alert Time "];
     data := [[Some (VCell (CStr "A"));
               Some (VTimestamp (at_time jan_1_2024 7 0 0))]] |}.

Definition folder_header_only : list File :=
  [ {| name := "empty.xlsx"; read_excel := Some header_only |} ].

(** A workbook whose first two labels are the same once stripped. *)
Definition two_sections : DataFrame :=
  {| columns := ["Section"; "Section "; "Alert Time"];
     data := [[Some (VCell (CStr "A")); Some (VCell (CStr "B"));
               Some (VTimestamp (at_time jan_1_2024 7 0 0))]] |}.

Definition folder_colliding : list File :=
  [ {| name := "jan.xlsx"; read_excel := Some one_alarm |};
    {| name := "feb.xlsx"; read_excel := Some two_sections |} ].

Definition folder_mixed : list File :=
  [ {| name := "empty.xlsx"; read_excel := Some header_only |};
    {| name := "~$jan.xlsx"; read_excel := None |};
    {| name := "notes.txt"; read_excel := None |};
    {| name := "jan.xlsx"; read_excel := Some one_alarm |} ].

(** [a] is a day before [b]. *)
Definition date_lt (a b : date) : Prop := date_compare a b = Lt.

(** * Further notions *)

(** An event of the section [section] dated from [start_date] to
    [end_date], whatever its alarm type. *)
Definition dated_in_section (start_date end_date : date) (section : string)
    (r : Row) : bool :=
  Series_ge (Date r) start_date && Series_le (Date r) end_date &&
  Series_eq (Section_ (raw r)) section.

Definition dec_31_2023 : date := mk_date 2023 12 31.

(** A cell that is not an integer: a text, a float, a timestamp or a
    null. *)
Definition not_integer (v : option value) : Prop :=
  forall z, v <> Some (VCell (CInt z)).

(** An unverified event without a chainage, a latitude or a longitude. *)
Definition unverified_unlocated (r : Row) : bool :=
  negb (Verified r) &&
  negb (notnull (Chainage (raw r)) && notnull (Latitude (raw r)) &&
        notnull (Longitude (raw r))).

(** A workbook of another layout: the position under its old label, and a
    blank row. *)
Definition feb_alarms : DataFrame :=
  {| columns := ["Section"; "LPG . No."];
     data := [[Some (VCell (CStr "B")); Some (VCell (CStr "41+200"))];
              [None; None]] |}.

Definition folder_two_layouts : list File :=
  [ {| name := "jan.xlsx"; read_excel := Some one_alarm |};
    {| name := "feb.xlsx"; read_excel := Some feb_alarms |} ].

(** A folder with a workbook that cannot be read after an empty one. *)
Definition folder_broken : list File :=
  [ {| name := "empty.xlsx"; read_excel := Some header_only |};
    {| name := "broken.xlsx"; read_excel := None |};
    {| name := "jan.xlsx"; read_excel := Some one_alarm |} ].

(** * Properties *)

(** ** Order on times and dates *)

Lemma time_le_micros (a b : time) :
  valid_time a -> valid_time b ->
  time_le a b = (micros_of_day a <=? micros_of_day b).
Proof.
  unfold valid_time, time_le, time_compare, micros_of_day.
  intros Ha Hb.
  destruct (Z.compare_spec (hour a) (hour b));
    [destruct (Z.compare_spec (minute a) (minute b));
     [destruct (Z.compare_spec (second a) (second b));
      [destruct (Z.compare_spec (microsecond a) (microsecond b))| |]| |]| |];
    symmetry; first [apply Z.leb_le; lia | apply Z.leb_gt; lia].
Qed.

Lemma date_compare_eq (a b : date) : date_compare a b = Eq <-> a = b.
Proof.
  unfold date_compare. destruct a as [ya ma da], b as [yb mb db]; simpl.
  split.
  - destruct (Z.compare_spec ya yb); try discriminate.
    destruct (Z.compare_spec ma mb); try discriminate.
    intros H1. apply Z.compare_eq in H1. congruence.
  - intros E. inversion E; subst. now rewrite !Z.compare_refl.
Qed.

Lemma date_eqb_eq (a b : date) : date_eqb a b = true <-> a = b.
Proof.
  unfold date_eqb. rewrite <- date_compare_eq.
  destruct (date_compare a b); split; congruence.
Qed.

Lemma date_eqb_refl (a : date) : date_eqb a a = true.
Proof. now apply date_eqb_eq. Qed.

Lemma date_eqb_neq (a b : date) : date_eqb a b = false <-> a <> b.
Proof.
  rewrite <- date_eqb_eq. destruct (date_eqb a b); split; congruence.
Qed.

Lemma date_le_spec (a b : date) : date_le a b = true <-> on_or_before a b.
Proof.
  unfold date_le, date_compare, on_or_before.
  destruct (Z.compare_spec (year a) (year b));
    [destruct (Z.compare_spec (month a) (month b));
     [destruct (Z.compare_spec (day a) (day b))| |]| |];
    split; intros; try discriminate; try reflexivity; lia.
Qed.

(** ** Classification *)

Lemma day_window_test (t : time) :
  valid_time t ->
  (time_le (time_hm 6 0) t && time_le t (time_hm 22 0) = true <->
   in_day_window t).
Proof.
  intros Hv. unfold in_day_window.
  rewrite !time_le_micros by (trivial; unfold valid_time, time_hm; simpl; lia).
  rewrite andb_true_iff, !Z.leb_le. reflexivity.
Qed.

(** C1: for every event the alarm type is Unknown exactly when the alert
    time is null, Day exactly when the alert time is not null and its time
    of day lies in the closed interval from 06:00:00 to 22:00:00, and Night
    otherwise; 06:00:00 and 22:00:00 give Day, 05:59:59 and 22:00:01 give
    Night. *)
Theorem alarm_type_classification (r : RawRow)
    (Hvalid : forall t, Alert_Time r = Some t -> valid_time (Timestamp_time t)) :
  let e := preprocess r in
  (Alarm_Type e = "Unknown" <-> Alert_Time (raw e) = None) /\
  (Alarm_Type e = "Day" <->
     exists t, Alert_Time (raw e) = Some t /\ in_day_window (Timestamp_time t)) /\
  (Alarm_Type e = "Night" <->
     exists t, Alert_Time (raw e) = Some t /\ ~ in_day_window (Timestamp_time t)) /\
  (forall t, Alert_Time (raw e) = Some t ->
     (Timestamp_time t = time_hms 6 0 0 -> Alarm_Type e = "Day") /\
     (Timestamp_time t = time_hms 22 0 0 -> Alarm_Type e = "Day") /\
     (Timestamp_time t = time_hms 5 59 59 -> Alarm_Type e = "Night") /\
     (Timestamp_time t = time_hms 22 0 1 -> Alarm_Type e = "Night")).
Proof.
  simpl. destruct (Alert_Time r) as [t|] eqn:Et; simpl.
  - specialize (Hvalid t eq_refl).
    pose proof (day_window_test Hvalid) as Hw.
    assert (Hbounds :
      forall t', Some t = Some t' ->
        (Timestamp_time t' = time_hms 6 0 0 -> in_day_window (Timestamp_time t)) /\
        (Timestamp_time t' = time_hms 22 0 0 -> in_day_window (Timestamp_time t)) /\
        (Timestamp_time t' = time_hms 5 59 59 -> ~ in_day_window (Timestamp_time t)) /\
        (Timestamp_time t' = time_hms 22 0 1 -> ~ in_day_window (Timestamp_time t))).
    { intros t' E. inversion E; subst t'.
      split; [|split; [|split]]; intros Ht; rewrite Ht; cbv;
        intuition congruence. }
    destruct (time_le (time_hm 6 0) (Timestamp_time t) &&
              time_le (Timestamp_time t) (time_hm 22 0)) eqn:Eb.
    + assert (Hin : in_day_window (Timestamp_time t)) by now apply Hw.
      split; [split; discriminate|].
      split; [split; [intros _; now exists t | reflexivity]|].
      split.
      * split; [discriminate|].
        intros [t' [E Hn]]. inversion E; subst. contradiction.
      * intros t' E. destruct (Hbounds t' E) as (H1 & H2 & H3 & H4).
        repeat split; trivial; intros Ht; [apply H3 in Ht | apply H4 in Ht];
          contradiction.
    + assert (Hout : ~ in_day_window (Timestamp_time t)).
      { intros Hin. apply Hw in Hin. discriminate. }
      split; [split; discriminate|].
      split.
      * split; [discriminate|].
        intros [t' [E Hn]]. inversion E; subst. contradiction.
      * split; [split; [intros _; now exists t | reflexivity]|].
        intros t' E. destruct (Hbounds t' E) as (H1 & H2 & H3 & H4).
        repeat split; trivial; intros Ht; [apply H1 in Ht | apply H2 in Ht];
          contradiction.
  - split; [split; reflexivity|].
    split; [split; [discriminate | intros [t [E _]]; discriminate]|].
    split; [split; [discriminate | intros [t [E _]]; discriminate]|].
    intros t E. discriminate.
Qed.

Example alarm_2300_is_night :
  let e := preprocess (alarm_at (Some (at_time jan_1_2024 23 0 0))) in
  Alarm_Type e = "Night" /\ Date e = Some jan_1_2024 /\ Hour e = Some 23.
Proof. repeat split. Qed.

Example alarm_type_boundaries :
  map (fun t => classify_alarm_type (Some (mk_Timestamp jan_1_2024 t 0)))
    [time_hms 5 59 59; time_hms 6 0 0; time_hms 22 0 0; time_hms 22 0 1;
     mk_time 22 0 0 1] =
  ["Night"; "Day"; "Day"; "Night"; "Night"] /\
  classify_alarm_type None = "Unknown".
Proof. split; reflexivity. Qed.

(** C2: for every event, verified holds exactly when one of the two
    resolution-remark cells is not null; the derivation is a total boolean
    function of the row. *)
Theorem verified_iff_remark (r : RawRow) :
  let e := preprocess r in
  (Verified e = true <->
     Resolution_remarks (raw e) <> None \/
     Resolution_remarks_Day_Guard (raw e) <> None) /\
  (Verified e = false <->
     Resolution_remarks (raw e) = None /\
     Resolution_remarks_Day_Guard (raw e) = None) /\
  Verified e =
    notnull (Resolution_remarks (raw e)) ||
    notnull (Resolution_remarks_Day_Guard (raw e)).
Proof.
  simpl. unfold notnull_any; simpl.
  destruct (Resolution_remarks r), (Resolution_remarks_Day_Guard r); simpl;
    repeat split; intros; try discriminate; try tauto;
    try (left; discriminate); try (right; discriminate);
    match goal with H : _ /\ _ |- _ => destruct H; discriminate end.
Qed.

(** ** The filter *)

Lemma mask_spec (alarm_type : string) (start_date end_date : date)
    (section : string) (r : Row) :
  mask alarm_type start_date end_date section r = true <->
  Alarm_Type r = alarm_type /\
  (exists d, Date r = Some d /\
             on_or_before start_date d /\ on_or_before d end_date) /\
  Section_ (raw r) = Some section.
Proof.
  unfold mask, Series_ge, Series_le, Series_eq.
  rewrite !andb_true_iff, String.eqb_eq.
  destruct (Date r) as [d|], (Section_ (raw r)) as [s|];
    rewrite ?date_le_spec, ?String.eqb_eq; split.
  - intros [[[H1 H2] H3] H4]. subst. repeat split; trivial. now exists d.
  - intros [H1 [[d' [E [H2 H3]]] H4]]. inversion E; inversion H4; subst. tauto.
  - intros [_ H]; discriminate.
  - intros [_ [_ H]]; discriminate.
  - intros [[[_ H] _] _]; discriminate.
  - intros [_ [[d' [E _]] _]]; discriminate.
  - intros [_ H]; discriminate.
  - intros [_ [_ H]]; discriminate.
Qed.

(** C5: an event of the store is in the filtered set exactly when its alarm
    type is the requested one, its date lies in the closed interval from the
    start date to the end date, and its section is the requested one; the
    filter is a total function, and an event whose date is null is left
    out. *)
Theorem filtered_rows_spec (df_raw : list Row) (alarm_type : string)
    (start_date end_date : date) (section : string) (e : Row) :
  (In e (filtered_rows df_raw alarm_type start_date end_date section) <->
   In e df_raw /\
   Alarm_Type e = alarm_type /\
   (exists d, Date e = Some d /\
              on_or_before start_date d /\ on_or_before d end_date) /\
   Section_ (raw e) = Some section) /\
  (Date e = None ->
   ~ In e (filtered_rows df_raw alarm_type start_date end_date section)).
Proof.
  unfold filtered_rows. rewrite filter_In, mask_spec. split.
  - reflexivity.
  - intros Hn [_ [_ [[d [E _]] _]]]. congruence.
Qed.

(** The alarm of 07:00 is a Day alarm. *)
Lemma alarm_type_classification_witness :
  (forall t, Alert_Time alarm_0700 = Some t -> valid_time (Timestamp_time t)) /\
  (Alarm_Type (preprocess alarm_0700) = "Day" <->
   exists t, Alert_Time (raw (preprocess alarm_0700)) = Some t /\
             in_day_window (Timestamp_time t)).
Proof.
  assert (H : forall t, Alert_Time alarm_0700 = Some t ->
                        valid_time (Timestamp_time t)).
  { intros t E. inversion E; subst. unfold valid_time; simpl. lia. }
  split; [exact H|].
  exact (proj1 (proj2 (alarm_type_classification alarm_0700 H))).
Defined.

(** ** The verification aggregate *)

Lemma date_lt_spec (a b : date) :
  date_lt a b <->
  year a < year b \/
  (year a = year b /\
   (month a < month b \/ (month a = month b /\ day a < day b))).
Proof.
  unfold date_lt, date_compare.
  destruct (Z.compare_spec (year a) (year b));
    [destruct (Z.compare_spec (month a) (month b));
     [destruct (Z.compare_spec (day a) (day b))| |]| |];
    split; intros; try discriminate; try reflexivity; lia.
Qed.

Lemma date_compare_gt (a b : date) : date_compare a b = Gt -> date_lt b a.
Proof.
  intros H. apply date_lt_spec. revert H. unfold date_compare.
  destruct (Z.compare_spec (year a) (year b));
    [destruct (Z.compare_spec (month a) (month b));
     [destruct (Z.compare_spec (day a) (day b))| |]| |];
    intros; try discriminate; lia.
Qed.

Lemma date_lt_trans (a b c : date) : date_lt a b -> date_lt b c -> date_lt a c.
Proof. rewrite !date_lt_spec. lia. Qed.

Lemma date_lt_irrefl (a : date) : ~ date_lt a a.
Proof. rewrite date_lt_spec. lia. Qed.

Lemma insert_key_In (d x : date) (keys : list date) :
  In x (insert_key d keys) <-> x = d \/ In x keys.
Proof.
  induction keys as [|k keys IH]; simpl.
  - intuition.
  - destruct (date_compare d k) eqn:E; simpl.
    + apply date_compare_eq in E. subst. intuition.
    + intuition.
    + rewrite IH. intuition.
Qed.

Lemma insert_key_sorted (d : date) (keys : list date) :
  StronglySorted date_lt keys -> StronglySorted date_lt (insert_key d keys).
Proof.
  induction 1 as [|k keys Hs IH Hk]; simpl.
  - constructor; constructor.
  - destruct (date_compare d k) eqn:E.
    + now constructor.
    + constructor; [now constructor|].
      constructor; [exact E|].
      eapply Forall_impl; [|exact Hk].
      intros x Hx. eapply date_lt_trans; eassumption.
    + constructor; [exact IH|].
      apply Forall_forall. intros x Hx. apply insert_key_In in Hx.
      destruct Hx as [->|Hx].
      * now apply date_compare_gt.
      * rewrite Forall_forall in Hk. now apply Hk.
Qed.

Lemma group_keys_sorted (df : list Row) : StronglySorted date_lt (group_keys df).
Proof.
  induction df as [|r df IH]; simpl.
  - constructor.
  - destruct (Date r); [now apply insert_key_sorted | exact IH].
Qed.

Lemma group_keys_In (df : list Row) (d : date) :
  In d (group_keys df) <-> exists r, In r df /\ Date r = Some d.
Proof.
  induction df as [|r df IH]; simpl.
  - split; [tauto | intros [r [[] _]]].
  - destruct (Date r) as [d'|] eqn:E.
    + rewrite insert_key_In, IH. split.
      * intros [->|[r' [Hr' E']]]; [exists r | exists r']; auto.
      * intros [r' [[<-|Hr'] E']]; [left; congruence | right; now exists r'].
    + rewrite IH. split.
      * intros [r' [Hr' E']]. exists r'; auto.
      * intros [r' [[<-|Hr'] E']]; [congruence | now exists r'].
Qed.

Lemma sorted_NoDup (keys : list date) : StronglySorted date_lt keys -> NoDup keys.
Proof.
  induction 1 as [|k keys Hs IH Hk]; constructor; trivial.
  intros Hin. rewrite Forall_forall in Hk.
  exact (date_lt_irrefl (Hk k Hin)).
Qed.

Lemma in_group_spec (d : date) (r : Row) :
  in_group d r = true <-> Date r = Some d.
Proof.
  unfold in_group. destruct (Date r) as [d'|].
  - rewrite date_eqb_eq. split; congruence.
  - split; discriminate.
Qed.

Lemma Series_sum_filter {A} (f : A -> bool) (l : list A) :
  Series_sum (map f l) = Z.of_nat (List.length (filter f l)).
Proof.
  induction l as [|a l IH]; simpl; trivial.
  rewrite IH. destruct (f a); simpl List.length; lia.
Qed.

Lemma Series_count_notnull {A B} (f : A -> option B) (l : list A) :
  Forall (fun a => f a <> None) l ->
  Series_count (map f l) = Z.of_nat (List.length l).
Proof.
  induction 1 as [|a l Ha Hl IH]; [reflexivity|].
  cbn [map Series_count List.length]. rewrite IH, Nat2Z.inj_succ.
  destruct (f a); [unfold notnull; lia | congruence].
Qed.

Lemma filter_length_split {A} (f : A -> bool) (l : list A) :
  (List.length (filter f l) + List.length (filter (fun a => negb (f a)) l) =
   List.length l)%nat.
Proof.
  induction l as [|a l IH]; simpl; trivial.
  destruct (f a); simpl; lia.
Qed.

Lemma preprocess_Date_Alert_Time (r : RawRow) (d : date) :
  Date (preprocess r) = Some d -> Alert_Time (raw (preprocess r)) <> None.
Proof. simpl. destruct (Alert_Time r); [discriminate 2 | discriminate 1]. Qed.

(** C3: in the verification aggregate over a filtered set, every date has
    one bucket, and in every bucket the total is the number of events of
    that date, verified the number of them with verified true, unverified
    the number with verified false, and verified plus unverified is the
    total. *)
Theorem verify_summary_counts (rows : list RawRow) (alarm_type : string)
    (start_date end_date : date) (section : string) :
  let df_raw := map preprocess rows in
  let filtered := filtered_rows df_raw alarm_type start_date end_date section in
  let summary := verify_summary df_raw alarm_type start_date end_date section in
  Forall (fun b =>
            let bucket := filter (in_group (summary_Date b)) filtered in
            total_alarms b = Z.of_nat (List.length bucket) /\
            verified b = Z.of_nat (List.length (filter Verified bucket)) /\
            unverified b =
              Z.of_nat (List.length (filter (fun r => negb (Verified r)) bucket)) /\
            verified b + unverified b = total_alarms b) summary /\
  NoDup (map summary_Date summary) /\
  (forall d, In d (map summary_Date summary) <->
             exists r, In r filtered /\ Date r = Some d) /\
  bar_data (update_verify_graph df_raw alarm_type start_date end_date section) =
    summary.
Proof.
  intros df_raw filtered summary.
  assert (Hkeys : map summary_Date summary = group_keys filtered).
  { unfold summary, verify_summary, groupby_Date. fold filtered.
    rewrite !map_map. simpl. apply map_id. }
  split; [|split; [|split]].
  - apply Forall_forall. intros b Hb.
    unfold summary, verify_summary, groupby_Date in Hb. fold filtered in Hb.
    rewrite map_map in Hb. apply in_map_iff in Hb.
    destruct Hb as [d [<- Hd]]. simpl.
    set (bucket := filter (in_group d) filtered).
    assert (Htotal : Series_count (map (fun r => Alert_Time (raw r)) bucket) =
                     Z.of_nat (List.length bucket)).
    { apply Series_count_notnull. apply Forall_forall. intros r Hr.
      apply filter_In in Hr. destruct Hr as [Hr Hg].
      apply in_group_spec in Hg.
      apply filter_In in Hr. destruct Hr as [Hr _].
      apply in_map_iff in Hr. destruct Hr as [r0 [<- _]].
      now apply preprocess_Date_Alert_Time with d. }
    unfold Series_invert. rewrite map_map, !Series_sum_filter, Htotal.
    split; [reflexivity|split; [reflexivity|split; [reflexivity|]]].
    pose proof (filter_length_split Verified bucket). lia.
  - rewrite Hkeys. apply sorted_NoDup, group_keys_sorted.
  - intros d. rewrite Hkeys. apply group_keys_In.
  - reflexivity.
Qed.

Example verify_summary_example :
  verify_summary
    (map preprocess [alarm_0500; alarm_0530_resolved; alarm_0700;
                     alarm_at None])
    "Night" jan_1_2024 jan_2_2024 "A" =
  [ {| summary_Date := jan_1_2024; total_alarms := 2; verified := 1;
       unverified := 1 |} ].
Proof. reflexivity. Qed.

(** ** The unverified detail set *)

Lemma string_app_assoc (a b c : string) : (a ++ b) ++ c = a ++ b ++ c.
Proof. induction a as [|x a IH]; simpl; [reflexivity | now rewrite IH]. Qed.

Lemma filter_filter {A} (f g : A -> bool) (l : list A) :
  filter g (filter f l) = filter (fun a => f a && g a) l.
Proof.
  induction l as [|a l IH]; simpl; trivial.
  destruct (f a); simpl; [destruct (g a)|]; now rewrite IH.
Qed.

Lemma filter_ext_eq {A} (f g : A -> bool) (l : list A) :
  (forall a, f a = g a) -> filter f l = filter g l.
Proof.
  intros H. induction l as [|a l IH]; simpl; trivial.
  now rewrite H, IH.
Qed.

Lemma Location_markdown (r : Row) : Location r = "[📍](" ++ maps_url r ++ ")".
Proof.
  unfold Location, maps_url. rewrite !string_app_assoc. reflexivity.
Qed.

(** The rows both the table and the export keep. *)
Lemma unverified_selection (df_raw : list Row) (alarm_type : string)
    (start_date end_date : date) (section : string) :
  dropna_subset
    (filter (mask_unverified alarm_type start_date end_date section) df_raw) =
  filter unverified_located
    (filtered_rows df_raw alarm_type start_date end_date section).
Proof.
  unfold dropna_subset, filtered_rows. rewrite !filter_filter.
  apply filter_ext_eq. intros r.
  unfold mask_unverified, mask, unverified_located.
  now rewrite !andb_assoc.
Qed.

Lemma unverified_located_spec (r : Row) :
  unverified_located r = true <->
  Verified r = false /\ Chainage (raw r) <> None /\
  Latitude (raw r) <> None /\ Longitude (raw r) <> None.
Proof.
  unfold unverified_located.
  destruct (Verified r), (Chainage (raw r)), (Latitude (raw r)),
    (Longitude (raw r)); simpl; intuition congruence.
Qed.

(** C6, as the code has it: the unverified detail set is the filtered set
    restricted to the events with verified false and a non-null chainage,
    latitude and longitude; every row has the seven columns Section,
    Chainage, Alert Type/Severity, Alert Time, Alert Duration(HH:MM:SS),
    Event Type, Location in this order, and its Location is the Markdown
    link whose target is the map URL of the row's coordinates. *)
Theorem unverified_table_spec (df_raw : list Row) (alarm_type : string)
    (start_date end_date : date) (section : string) :
  let filtered := filtered_rows df_raw alarm_type start_date end_date section in
  let detail := filter unverified_located filtered in
  update_unverified_table df_raw alarm_type start_date end_date section =
    map table_record detail /\
  (forall r, In r detail <->
     In r filtered /\ Verified r = false /\ Chainage (raw r) <> None /\
     Latitude (raw r) <> None /\ Longitude (raw r) <> None) /\
  Forall (fun rec => map fst rec = table_columns)
    (update_unverified_table df_raw alarm_type start_date end_date section) /\
  Forall (fun r =>
            record_get "Location" (table_record r) =
              Some (Some (VCell (CStr ("[📍](" ++ maps_url r ++ ")")))) /\
            exists lat lon,
              Latitude (raw r) = Some lat /\ Longitude (raw r) = Some lon /\
              maps_url r =
                "https://www.google.com/maps?q=" ++ py_str lat ++ "," ++
                py_str lon ++ "&t=k") detail.
Proof.
  intros filtered detail.
  assert (E : update_unverified_table df_raw alarm_type start_date end_date
                section = map table_record detail).
  { unfold update_unverified_table. now rewrite unverified_selection. }
  split; [exact E|]. split; [|split].
  - intros r. unfold detail. now rewrite filter_In, unverified_located_spec.
  - rewrite E. apply Forall_forall. intros rec Hrec.
    apply in_map_iff in Hrec. destruct Hrec as [r [<- _]]. reflexivity.
  - apply Forall_forall. intros r Hr.
    apply filter_In in Hr. destruct Hr as [_ Hr].
    apply unverified_located_spec in Hr. destruct Hr as (_ & _ & Hlat & Hlon).
    split.
    + simpl. now rewrite Location_markdown.
    + unfold maps_url.
      destruct (Latitude (raw r)) as [lat|]; [|congruence].
      destruct (Longitude (raw r)) as [lon|]; [|congruence].
      now exists lat, lon.
Qed.

(** C6, as the specification has it, fails: for the unverified alarm at
    10, 20 the Location of the table is not the map URL but the Markdown
    link around it. *)
Lemma location_is_not_the_url :
  let e := preprocess alarm_0700 in
  update_unverified_table [e] "Day" jan_1_2024 jan_1_2024 "A" =
    [table_record e] /\
  maps_url e = "https://www.google.com/maps?q=10,20&t=k" /\
  record_get "Location" (table_record e) =
    Some (Some (VCell (CStr "[📍](https://www.google.com/maps?q=10,20&t=k)"))) /\
  record_get "Location" (table_record e) <>
    Some (Some (VCell (CStr (maps_url e)))).
Proof.
  repeat split; try reflexivity. discriminate.
Qed.

(** ** The export *)

Lemma Z_range_forallb (P : Z -> bool) (lo : Z) (len : nat) :
  forallb P (Z_range lo len) = true ->
  forall z, lo <= z < lo + Z.of_nat len -> P z = true.
Proof.
  intros H z Hz. rewrite forallb_forall in H. apply H.
  unfold Z_range. apply in_map_iff. exists (Z.to_nat (z - lo)). split.
  - lia.
  - apply in_seq. lia.
Qed.

Lemma zero_padded2_digits (z : Z) :
  0 <= z <= 99 ->
  zero_padded2 z = String (digit (z / 10)) (String (digit (z mod 10)) "").
Proof.
  intros Hz. apply String.eqb_eq.
  apply (@Z_range_forallb
           (fun z => String.eqb (zero_padded2 z)
                       (String (digit (z / 10)) (String (digit (z mod 10)) "")))
           0 100); [vm_compute; reflexivity | lia].
Qed.

Lemma year_digits (z : Z) :
  1677 <= z <= 2262 ->
  str_of_Z z =
    String (digit (z / 1000)) (String (digit (z / 100 mod 10))
    (String (digit (z / 10 mod 10)) (String (digit (z mod 10)) ""))).
Proof.
  intros Hz. apply String.eqb_eq.
  apply (@Z_range_forallb
           (fun z => String.eqb (str_of_Z z)
                       (String (digit (z / 1000)) (String (digit (z / 100 mod 10))
                       (String (digit (z / 10 mod 10))
                       (String (digit (z mod 10)) "")))))
           1677 586); [vm_compute; reflexivity | lia].
Qed.

Lemma strftime_dmY_spec (d : date) :
  valid_date d -> strftime_dmY d = DD_MM_YYYY d.
Proof.
  intros (Hy & Hm & Hd). unfold strftime_dmY, DD_MM_YYYY.
  rewrite (@zero_padded2_digits (day d)), (@zero_padded2_digits (month d)),
    (year_digits Hy) by lia.
  reflexivity.
Qed.

Lemma str_replace_length (old new : ascii) (s : string) :
  String.length (str_replace old new s) = String.length s.
Proof. induction s as [|c s IH]; simpl; congruence. Qed.

Lemma str_replace_get (s : string) (i : nat) :
  String.get i (str_replace " " "_" s) =
  option_map space_to_underscore (String.get i s).
Proof.
  revert i. induction s as [|c s IH]; intros i; simpl; trivial.
  destruct i; simpl; [reflexivity | apply IH].
Qed.

Lemma str_replace_no_space (s : string) (i : nat) :
  String.get i (str_replace " " "_" s) <> Some " "%char.
Proof.
  rewrite str_replace_get. destruct (String.get i s) as [c|]; simpl;
    [|discriminate].
  unfold space_to_underscore. destruct (Ascii.eqb c " ") eqn:E.
  - discriminate.
  - apply Ascii.eqb_neq in E. congruence.
Qed.

(** C7: the export is a workbook with the one sheet "Unverified Alarms",
    whose columns are the eight columns Section, Chainage,
    Alert Type/Severity, Alert Time, Alert Duration(HH:MM:SS), Event Type,
    Latitude, Longitude, without the link column; its file name is the
    section with every space replaced by an underscore, the start date as
    DD-MM-YYYY, "to", the end date as DD-MM-YYYY, "unverified", the alarm
    type and "alarms", joined by underscores, with the extension .xlsx. *)
Theorem export_payload_shape (df_raw : list Row) (n_clicks : Z)
    (alarm_type : string) (start_date end_date : date) (section : string)
    (Hstart : valid_date start_date) (Hend : valid_date end_date) :
  exists rows section_clean,
    download_unverified_excel df_raw (Some export_button) n_clicks alarm_type
      start_date end_date section =
    Some {| content :=
              [ {| sheet_name := "Unverified Alarms";
                   header :=
                     ["Section"; "Chainage"; "Alert Type/Severity";
                      "Alert Time"; "Alert Duration(HH:MM:SS)"; "Event Type";
                      "Latitude"; "Longitude"];
                   sheet_rows := rows |} ];
            filename :=
              (section_clean ++ "_" ++ DD_MM_YYYY start_date ++ "_to_" ++
               DD_MM_YYYY end_date ++ "_unverified_" ++ alarm_type ++
               "_alarms") ++ ".xlsx" |} /\
    Forall (fun row => List.length row = 8%nat) rows /\
    String.length section_clean = String.length section /\
    (forall i, String.get i section_clean =
               option_map space_to_underscore (String.get i section)) /\
    (forall i, String.get i section_clean <> Some " "%char).
Proof.
  exists (map download_row
            (dropna_subset
               (filter (mask_unverified alarm_type start_date end_date section)
                  df_raw))),
         (str_replace " " "_" section).
  split; [|split; [|split; [|split]]].
  - unfold download_unverified_excel, export_button. simpl negb. cbv iota.
    rewrite !strftime_dmY_spec by assumption.
    rewrite !string_app_assoc. reflexivity.
  - apply Forall_forall. intros row Hrow.
    apply in_map_iff in Hrow. destruct Hrow as [r [<- _]]. reflexivity.
  - apply str_replace_length.
  - apply str_replace_get.
  - apply str_replace_no_space.
Qed.

(** The export of section "Section A" for the first two days of 2024. *)
Lemma export_payload_shape_witness :
  valid_date jan_1_2024 /\ valid_date jan_2_2024 /\
  exists rows section_clean,
    download_unverified_excel [preprocess alarm_0700] (Some export_button) 1
      "Day" jan_1_2024 jan_2_2024 "Section A" =
    Some {| content :=
              [ {| sheet_name := "Unverified Alarms";
                   header := download_columns;
                   sheet_rows := rows |} ];
            filename :=
              (section_clean ++ "_" ++ "01-01-2024" ++ "_to_" ++
               "02-01-2024" ++ "_unverified_" ++ "Day" ++ "_alarms") ++
              ".xlsx" |} /\
    (forall i, String.get i section_clean =
               option_map space_to_underscore (String.get i "Section A")).
Proof.
  assert (H1 : valid_date jan_1_2024) by (unfold valid_date; simpl; lia).
  assert (H2 : valid_date jan_2_2024) by (unfold valid_date; simpl; lia).
  split; [exact H1|]. split; [exact H2|].
  destruct (export_payload_shape [preprocess alarm_0700] 1 "Day" "Section A"
              H1 H2) as (rows & clean & E & _ & _ & Hget & _).
  exists rows, clean. split; [exact E | exact Hget].
Defined.

Example export_filename_example :
  option_map filename
    (download_unverified_excel [preprocess alarm_0700] (Some export_button) 1
       "Day" jan_1_2024 jan_2_2024 "Section A") =
  Some "Section_A_01-01-2024_to_02-01-2024_unverified_Day_alarms.xlsx".
Proof. reflexivity. Qed.

Lemma is_export_button (triggered_id : option string) :
  match triggered_id with
  | Some i => String.eqb i "download-excel-btn"
  | None => false
  end = true <-> triggered_id = Some export_button.
Proof.
  unfold export_button. destruct triggered_id as [i|].
  - rewrite String.eqb_eq. split; congruence.
  - split; discriminate.
Qed.

(** C8: the exporter returns no payload when the trigger is not the export
    button, and returns a payload when it is: a payload is produced exactly
    for the export action. *)
Theorem export_only_on_button (df_raw : list Row)
    (triggered_id : option string) (n_clicks : Z) (alarm_type : string)
    (start_date end_date : date) (section : string) :
  (download_unverified_excel df_raw triggered_id n_clicks alarm_type
     start_date end_date section = None <->
   triggered_id <> Some export_button) /\
  ((exists payload,
      download_unverified_excel df_raw triggered_id n_clicks alarm_type
        start_date end_date section = Some payload) <->
   triggered_id = Some export_button).
Proof.
  pose proof (is_export_button triggered_id) as Hb.
  unfold download_unverified_excel.
  destruct (match triggered_id with
            | Some i => String.eqb i "download-excel-btn"
            | None => false
            end); simpl.
  - assert (E : triggered_id = Some export_button) by now apply Hb.
    split; split; try discriminate; trivial.
    + intros Hn. contradiction.
    + intros _. eexists. reflexivity.
  - assert (N : triggered_id <> Some export_button).
    { intros E. apply Hb in E. discriminate. }
    split; split; trivial.
    + intros [p Hp]. discriminate.
    + intros E. contradiction.
Qed.

Example filter_change_exports_nothing :
  download_unverified_excel [preprocess alarm_0700] (Some "alarm-type") 0
    "Day" jan_1_2024 jan_2_2024 "A" = None /\
  download_unverified_excel [preprocess alarm_0700] None 0
    "Day" jan_1_2024 jan_2_2024 "A" = None.
Proof. split; reflexivity. Qed.

(** C10: on a click of the export button, the rows written to the sheet and
    the rows of the on-screen table come from the same events, in the same
    order: the events of the filtered set with verified false and a
    non-null chainage, latitude and longitude.  The two agree on their
    first six columns; the sheet ends with the latitude and the longitude,
    the table with the Location link. *)
Theorem export_rows_are_table_rows (df_raw : list Row) (n_clicks : Z)
    (alarm_type : string) (start_date end_date : date) (section : string) :
  let filtered := filtered_rows df_raw alarm_type start_date end_date section in
  exists (events : list Row) (payload : Download) (sheet : Sheet),
    download_unverified_excel df_raw (Some export_button) n_clicks alarm_type
      start_date end_date section = Some payload /\
    content payload = [sheet] /\
    sheet_rows sheet = map download_row events /\
    update_unverified_table df_raw alarm_type start_date end_date section =
      map table_record events /\
    (forall r, In r events <->
       In r filtered /\ Verified r = false /\ Chainage (raw r) <> None /\
       Latitude (raw r) <> None /\ Longitude (raw r) <> None) /\
    firstn 6 (header sheet) = firstn 6 table_columns /\
    skipn 6 (header sheet) = ["Latitude"; "Longitude"] /\
    skipn 6 table_columns = ["Location"] /\
    Forall (fun r =>
              map fst (table_record r) = table_columns /\
              firstn 6 (download_row r) = firstn 6 (map snd (table_record r)) /\
              skipn 6 (download_row r) =
                [option_map VCell (Latitude (raw r));
                 option_map VCell (Longitude (raw r))] /\
              skipn 6 (map snd (table_record r)) =
                [Some (VCell (CStr (Location r)))]) events.
Proof.
  intros filtered.
  exists (filter unverified_located filtered).
  eexists. eexists.
  split; [|split; [|split; [|split; [|split; [|split; [|split; [|split]]]]]]].
  - unfold download_unverified_excel, export_button. simpl negb. cbv iota.
    reflexivity.
  - reflexivity.
  - simpl.
    change (fun r : Row =>
              String.eqb (Alarm_Type r) alarm_type &&
              Series_ge (Date r) start_date && Series_le (Date r) end_date &&
              Series_eq (Section_ (raw r)) section && negb (Verified r))
      with (mask_unverified alarm_type start_date end_date section).
    now rewrite unverified_selection.
  - unfold update_unverified_table. now rewrite unverified_selection.
  - intros r. now rewrite filter_In, unverified_located_spec.
  - reflexivity.
  - reflexivity.
  - reflexivity.
  - apply Forall_forall. intros r _. repeat split.
Qed.

(** ** The time distribution *)

Lemma bar_height_hours (l : list Row) (h : Z) :
  bar_height (map (fun r => option_map AHour (Hour r)) l) (AHour h) =
  Z.of_nat (List.length (filter (at_hour h) l)).
Proof.
  induction l as [|r l IH]; [reflexivity|].
  cbn [map filter]. unfold at_hour at 1.
  destruct (Hour r) as [k|]; cbn [option_map bar_height axis_value_eqb].
  - rewrite IH. destruct (k =? h); cbn [List.length]; lia.
  - exact IH.
Qed.

Lemma bar_height_dates (l : list Row) (d : date) :
  bar_height (map (fun r => option_map ADate (Date r)) l) (ADate d) =
  Z.of_nat (List.length (filter (in_group d) l)).
Proof.
  induction l as [|r l IH]; [reflexivity|].
  cbn [map filter]. unfold in_group at 1.
  destruct (Date r) as [k|]; cbn [option_map bar_height axis_value_eqb].
  - rewrite IH. destruct (date_eqb k d); cbn [List.length]; lia.
  - exact IH.
Qed.

Lemma filter_length_pos {A} (f : A -> bool) (l : list A) :
  0 < Z.of_nat (List.length (filter f l)) <-> exists a, In a l /\ f a = true.
Proof.
  split.
  - destruct (filter f l) as [|a l'] eqn:E; simpl; [lia|].
    intros _. exists a. apply filter_In. rewrite E. now left.
  - intros [a Ha]. apply filter_In in Ha.
    destruct (filter f l); [contradiction | simpl; lia].
Qed.

Lemma total_add {A} (f g : A -> Z) (l : list A) :
  total (map (fun a => f a + g a) l) = total (map f l) + total (map g l).
Proof. induction l as [|a l IH]; simpl; lia. Qed.

Lemma one_hour_bucket (k : Z) :
  0 <= k <= 23 -> total (map (fun h => if k =? h then 1 else 0) hours) = 1.
Proof.
  intros Hk. apply Z.eqb_eq.
  apply (@Z_range_forallb
           (fun k => total (map (fun h => if k =? h then 1 else 0) hours) =? 1)
           0 24); [vm_compute; reflexivity | lia].
Qed.

Lemma hour_buckets_total (xs : list (option axis_value)) :
  Forall (fun v => exists h, v = Some (AHour h) /\ 0 <= h <= 23) xs ->
  total (map (fun h => bar_height xs (AHour h)) hours) =
  Z.of_nat (List.length xs).
Proof.
  induction 1 as [|v xs [k [-> Hk]] Hxs IH].
  - simpl. induction hours; simpl; lia.
  - cbn [bar_height axis_value_eqb List.length].
    rewrite (total_add (fun h => if k =? h then 1 else 0)
               (fun h => bar_height xs (AHour h))).
    rewrite IH, one_hour_bucket by assumption. lia.
Qed.

Lemma filtered_hours (rows : list RawRow) (alarm_type : string)
    (start_date end_date : date) (section : string) :
  Forall valid_alert_time rows ->
  Forall (fun r => exists h, Hour r = Some h /\ 0 <= h <= 23)
    (filtered_rows (map preprocess rows) alarm_type start_date end_date section).
Proof.
  intros Hvalid. apply Forall_forall. intros r Hr.
  apply filter_In in Hr. destruct Hr as [Hr Hm].
  apply mask_spec in Hm. destruct Hm as (_ & [d [Hd _]] & _).
  apply in_map_iff in Hr. destruct Hr as [r0 [<- Hr0]].
  rewrite Forall_forall in Hvalid. specialize (Hvalid r0 Hr0).
  simpl in *. destruct (Alert_Time r0) as [t|] eqn:Et; [|discriminate].
  exists (Timestamp_hour t). split; [reflexivity|].
  destruct (Hvalid t Et) as [Hh _].
  unfold Timestamp_hour, Timestamp_time in *. lia.
Qed.

(** C9: when the start date is the end date, the time distribution is a
    histogram of the hours of the filtered set with 24 bins: every filtered
    event falls in one of the hours 0 to 23 and the bar of an hour counts
    the events of that hour; otherwise it is a histogram of the dates, with
    a bar for every date present that counts the events of that date.  Two
    filtered events at hour 5 give the bar of hour 5 the height 2 and every
    other hour the height 0. *)
Theorem time_distribution (rows : list RawRow) (alarm_type : string)
    (start_date end_date : date) (section : string)
    (Hvalid : Forall valid_alert_time rows) :
  let df_raw := map preprocess rows in
  let filtered := filtered_rows df_raw alarm_type start_date end_date section in
  let fig :=
    update_alarm_count_graph df_raw alarm_type start_date end_date section in
  (start_date = end_date ->
     x fig = "Hour" /\ nbins fig = Some 24 /\
     List.length (samples fig) = List.length filtered /\
     Forall (fun v => exists h, v = Some (AHour h) /\ 0 <= h <= 23)
       (samples fig) /\
     (forall h, bar_height (samples fig) (AHour h) =
                Z.of_nat (List.length (filter (at_hour h) filtered))) /\
     total (map (fun h => bar_height (samples fig) (AHour h)) hours) =
       Z.of_nat (List.length filtered)) /\
  (start_date <> end_date ->
     x fig = "Date" /\
     List.length (samples fig) = List.length filtered /\
     (forall d, bar_height (samples fig) (ADate d) =
                Z.of_nat (List.length (filter (in_group d) filtered))) /\
     (forall d, 0 < bar_height (samples fig) (ADate d) <->
                exists r, In r filtered /\ Date r = Some d)) /\
  (start_date = end_date ->
   forall r1 r2, filtered = [r1; r2] -> Hour r1 = Some 5 -> Hour r2 = Some 5 ->
     bar_height (samples fig) (AHour 5) = 2 /\
     forall h, h <> 5 -> bar_height (samples fig) (AHour h) = 0).
Proof.
  intros df_raw filtered fig.
  pose proof (@filtered_hours rows alarm_type start_date end_date section Hvalid)
    as Hhours.
  fold df_raw in Hhours. fold filtered in Hhours.
  assert (Hsamples : start_date = end_date ->
            samples fig = map (fun r => option_map AHour (Hour r)) filtered /\
            x fig = "Hour" /\ nbins fig = Some 24).
  { intros E. unfold fig, update_alarm_count_graph.
    rewrite (proj2 (date_eqb_eq start_date end_date) E). now repeat split. }
  split; [|split].
  - intros E. destruct (Hsamples E) as (Hs & Hx & Hn).
    assert (Hrange : Forall (fun v => exists h, v = Some (AHour h) /\ 0 <= h <= 23)
                       (samples fig)).
    { rewrite Hs. apply Forall_forall. intros v Hv.
      apply in_map_iff in Hv. destruct Hv as [r [<- Hr]].
      rewrite Forall_forall in Hhours. destruct (Hhours r Hr) as [h [Hh Hb]].
      exists h. now rewrite Hh. }
    split; [exact Hx|]. split; [exact Hn|].
    split; [now rewrite Hs, length_map|].
    split; [exact Hrange|]. split.
    + intros h. rewrite Hs. apply bar_height_hours.
    + rewrite (hour_buckets_total Hrange). now rewrite Hs, length_map.
  - intros N. unfold fig, update_alarm_count_graph.
    rewrite (proj2 (date_eqb_neq start_date end_date) N). cbn [x samples].
    fold df_raw. fold filtered.
    split; [reflexivity|]. split; [apply length_map|]. split.
    + intros d. apply bar_height_dates.
    + intros d. rewrite bar_height_dates, filter_length_pos.
      split; intros [r [Hr Hd]]; exists r; split; trivial;
        now apply in_group_spec.
  - intros E r1 r2 Hf H1 H2. destruct (Hsamples E) as (Hs & _ & _).
    rewrite Hs, Hf. cbn [map]. rewrite H1, H2.
    cbn [option_map bar_height axis_value_eqb]. split; [reflexivity|].
    intros h Hh. destruct (5 =? h) eqn:E5; [apply Z.eqb_eq in E5; lia|].
    reflexivity.
Qed.

(** Two Night alarms at 05:00 and 05:30 of one day: the bar of hour 5 has
    the height 2. *)
Lemma time_distribution_witness :
  Forall valid_alert_time [alarm_0500; alarm_0530; alarm_0700] /\
  bar_height
    (samples (update_alarm_count_graph
                (map preprocess [alarm_0500; alarm_0530; alarm_0700])
                "Night" jan_1_2024 jan_1_2024 "A")) (AHour 5) = 2.
Proof.
  assert (H : Forall valid_alert_time [alarm_0500; alarm_0530; alarm_0700]).
  { apply Forall_cons; [|apply Forall_cons; [|apply Forall_cons;
      [|apply Forall_nil]]];
      intros t E; inversion E; subst; unfold valid_time; simpl; lia. }
  split; [exact H|].
  destruct (time_distribution "Night" jan_1_2024 jan_1_2024 "A" H)
    as (_ & _ & Hscenario).
  exact (proj1 (Hscenario eq_refl (preprocess alarm_0500)
                  (preprocess alarm_0530) eq_refl eq_refl eq_refl)).
Defined.

(** ** Ingestion *)

Lemma fnmatch_literal (pat s : list ascii) :
  Forall (fun p => p <> "*"%char /\ p <> "?"%char) pat ->
  (fnmatch pat s = true <-> s = pat).
Proof.
  intros Hpat. revert s. induction Hpat as [|p pat [Hs Hq] Hpat IH]; intros s.
  - destruct s; simpl; split; congruence.
  - simpl. apply Ascii.eqb_neq in Hs, Hq. rewrite Hs, Hq. simpl.
    destruct s as [|c s]; [split; discriminate|].
    rewrite andb_true_iff, Ascii.eqb_eq, IH. split.
    + intros [-> ->]. reflexivity.
    + intros E. inversion E. auto.
Qed.

(** A name matches [*.xlsx] exactly when it ends with [.xlsx]. *)
Lemma fnmatch_xlsx (s : list ascii) :
  fnmatch (list_ascii_of_string "*.xlsx") s = true <->
  exists stem, s = (stem ++ xlsx_suffix)%list.
Proof.
  assert (Hlit : forall s, fnmatch xlsx_suffix s = true <-> s = xlsx_suffix).
  { intros s'. apply fnmatch_literal.
    repeat constructor; discriminate. }
  change (list_ascii_of_string "*.xlsx") with ("*"%char :: xlsx_suffix).
  cbn [fnmatch]. rewrite Ascii.eqb_refl.
  induction s as [|c s IH].
  - rewrite orb_false_r, Hlit. split.
    + intros E. exists []. now rewrite <- E.
    + intros [stem E]. destruct stem; [exact E | discriminate].
  - rewrite orb_true_iff, Hlit, IH. split.
    + intros [E|[stem E]].
      * exists []. exact E.
      * exists (c :: stem). simpl. now rewrite E.
    + intros [[|c' stem] E].
      * left. exact E.
      * right. exists stem. simpl in E. now inversion E.
Qed.

Lemma has_content_spec (df : DataFrame) :
  has_content df = false <-> entirely_empty df.
Proof.
  unfold has_content, entirely_empty. split.
  - intros H row Hrow c Hc. destruct c as [v|]; [|reflexivity].
    assert (T : existsb (existsb notnull) (data df) = true).
    { apply existsb_exists. exists row. split; trivial.
      apply existsb_exists. exists (Some v). now split. }
    congruence.
  - intros H. destruct (existsb (existsb notnull) (data df)) eqn:E; trivial.
    apply existsb_exists in E. destruct E as [row [Hrow E]].
    apply existsb_exists in E. destruct E as [c [Hc E]].
    rewrite (H row Hrow c Hc) in E. discriminate.
Qed.

Lemma filter_nil_existsb {A} (f : A -> bool) (l : list A) :
  filter f l = [] <-> existsb f l = false.
Proof.
  induction l as [|a l IH]; simpl; [tauto|].
  destruct (f a); simpl; [split; discriminate | exact IH].
Qed.

(** The test of the loop keeps exactly the frames that have content. *)
Lemma empty_dropna_all (df : DataFrame) :
  well_formed df ->
  empty (dropna_all (strip_columns df)) = negb (has_content df).
Proof.
  intros Hwf. unfold empty, dropna_all, strip_columns, has_content; simpl.
  destruct (filter (existsb notnull) (data df)) as [|row rows] eqn:E.
  - apply filter_nil_existsb in E. rewrite E.
    now destruct (map strip (columns df)).
  - assert (Hin : In row (filter (existsb notnull) (data df)))
      by (rewrite E; now left).
    apply filter_In in Hin. destruct Hin as [Hrow Hcell].
    assert (T : existsb (existsb notnull) (data df) = true).
    { apply existsb_exists. now exists row. }
    rewrite T. unfold well_formed in Hwf. rewrite Forall_forall in Hwf.
    specialize (Hwf row Hrow).
    destruct (columns df) as [|c cols]; simpl; trivial.
    destruct row; [discriminate | discriminate].
Qed.

Lemma read_files_readable (files : list File) (df_list : list DataFrame) :
  (forall f df, In f files -> read_excel f = Some df -> well_formed df) ->
  existsb unreadable files = false ->
  read_files files df_list = inr (df_list ++ contentful files)%list.
Proof.
  revert df_list. induction files as [|f files IH]; intros df_list Hwf Hread.
  - simpl. now rewrite app_nil_r.
  - simpl in Hread. apply orb_false_iff in Hread. destruct Hread as [Hf Hread].
    unfold unreadable, isnull in Hf.
    cbn [read_files contentful flat_map].
    destruct (read_excel f) as [df|] eqn:Ef; [|discriminate].
    fold (strip_columns df).
    rewrite empty_dropna_all by (apply (Hwf f); [now left | exact Ef]).
    rewrite negb_involutive.
    assert (Hwf' : forall f' df', In f' files -> read_excel f' = Some df' ->
                                  well_formed df')
      by (intros f' df' Hin; apply Hwf; now right).
    destruct (has_content df).
    + rewrite IH by assumption. fold (contentful files).
      now rewrite <- app_assoc.
    + rewrite IH by assumption. reflexivity.
Qed.

Lemma read_files_unreadable (files : list File) (df_list : list DataFrame) :
  existsb unreadable files = true ->
  exists e, read_files files df_list = inl e.
Proof.
  revert df_list. induction files as [|f files IH]; intros df_list Hread.
  - discriminate.
  - simpl in Hread. cbn [read_files]. unfold unreadable, isnull in Hread.
    destruct (read_excel f) as [df|]; [|eexists; reflexivity].
    simpl in Hread.
    destruct (negb (empty (dropna_all
                {| columns := map strip (columns df); data := data df |})));
      now apply IH.
Qed.

Lemma contentful_nil (files : list File) :
  contentful files = [] <->
  forall f df, In f files -> read_excel f = Some df -> entirely_empty df.
Proof.
  induction files as [|f files IH]; cbn [contentful flat_map].
  - split; [intros _ f df [] | reflexivity].
  - fold (contentful files). split.
    + intros E. apply app_eq_nil in E. destruct E as [Ef E].
      intros f' df' [<-|Hin] Hr.
      * rewrite Hr in Ef. apply has_content_spec.
        destruct (has_content df'); [discriminate | reflexivity].
      * now apply (proj1 IH E f').
    + intros H.
      assert (E : contentful files = []).
      { apply IH. intros f' df' Hin. apply H. now right. }
      rewrite E, app_nil_r.
      destruct (read_excel f) as [df|] eqn:Ef; trivial.
      assert (Hc : has_content df = false).
      { apply has_content_spec. apply (H f); [now left | exact Ef]. }
      now rewrite Hc.
Qed.

Lemma unreadable_exists (files : list File) :
  existsb unreadable files = true <->
  exists f, In f files /\ read_excel f = None.
Proof.
  rewrite existsb_exists. unfold unreadable, isnull.
  split; intros [f [Hin H]]; exists f; split; trivial;
    destruct (read_excel f); trivial; discriminate.
Qed.

Lemma valid_files_spec (folder : list File) (f : File) :
  In f (valid_files folder) <->
  In f folder /\
  startswith (name f) "." = false /\
  (exists stem,
     list_ascii_of_string (name f) = (stem ++ xlsx_suffix)%list) /\
  startswith (name f) "~$" = false.
Proof.
  unfold valid_files, glob_xlsx.
  rewrite !filter_In, andb_true_iff, !negb_true_iff, fnmatch_xlsx. tauto.
Qed.

Lemma labels_eqb_eq (a b : list string) : labels_eqb a b = true <-> a = b.
Proof.
  revert b. induction a as [|x a IH]; intros [|y b]; simpl;
    try (split; congruence).
  rewrite andb_true_iff, String.eqb_eq, IH. split.
  - intros [-> ->]. reflexivity.
  - intros E. inversion E. auto.
Qed.

Lemma has_duplicates_spec (labels : list string) :
  has_duplicates labels = false <-> NoDup labels.
Proof.
  induction labels as [|l labels IH]; simpl.
  - split; [constructor | reflexivity].
  - rewrite orb_false_iff, IH. split.
    + intros [Hl Hnd]. constructor; [|exact Hnd].
      intros Hin.
      assert (T : existsb (String.eqb l) labels = true).
      { apply existsb_exists. exists l. split; [exact Hin|].
        apply String.eqb_refl. }
      congruence.
    + intros Hnd. inversion Hnd as [|? ? Hl Hnd']; subst. split; [|exact Hnd'].
      destruct (existsb (String.eqb l) labels) eqn:E; trivial.
      apply existsb_exists in E. destruct E as [l' [Hin E]].
      apply String.eqb_eq in E. subst. contradiction.
Qed.

Lemma same_labels_spec (df : DataFrame) (rest : list DataFrame) :
  forallb (fun df' => labels_eqb (columns df') (columns df)) rest = false <->
  labels_differ (df :: rest).
Proof.
  split.
  - intros H.
    assert (Hex : exists df', In df' rest /\ columns df' <> columns df).
    { induction rest as [|d rest IH]; [discriminate|].
      simpl in H. apply andb_false_iff in H. destruct H as [H|H].
      - exists d. split; [now left|]. intros E.
        apply labels_eqb_eq in E. congruence.
      - destruct (IH H) as [df' [Hin Hne]]. exists df'. split; [now right|].
        exact Hne. }
    destruct Hex as [df' [Hin Hne]].
    exists df', df. split; [now right|]. split; [now left | exact Hne].
  - intros (df1 & df2 & H1 & H2 & Hne).
    destruct (forallb (fun df' => labels_eqb (columns df') (columns df)) rest)
      eqn:E; trivial.
    rewrite forallb_forall in E.
    assert (Hall : forall d, In d (df :: rest) -> columns d = columns df).
    { intros d [<-|Hd]; [reflexivity|]. now apply labels_eqb_eq, E. }
    exfalso. apply Hne. now rewrite (Hall df1 H1), (Hall df2 H2).
Qed.

Lemma repeated_label_spec (dfs : list DataFrame) :
  existsb (fun df => has_duplicates (columns df)) dfs = true <->
  repeated_label dfs.
Proof.
  unfold repeated_label. rewrite existsb_exists.
  split; intros [df [Hin H]]; exists df; split; trivial.
  - intros Hnd. apply has_duplicates_spec in Hnd. congruence.
  - destruct (has_duplicates (columns df)) eqn:E; trivial.
    apply has_duplicates_spec in E. contradiction.
Qed.

(** When [pd.concat] raises, and what. *)
Lemma concat_raises (dfs : list DataFrame) (e : exn) :
  concat dfs = inl e <->
  (dfs = [] /\ e = ValueError "No objects to concatenate") \/
  (labels_differ dfs /\ repeated_label dfs /\
   e = InvalidIndexError
         "Reindexing only valid with uniquely valued Index objects").
Proof.
  destruct dfs as [|df rest]; unfold concat.
  - split.
    + intros E. inversion E. now left.
    + intros [[_ ->]|((df1 & df2 & [] & _) & _)]. reflexivity.
  - pose proof (same_labels_spec df rest) as Hsame.
    pose proof (repeated_label_spec (df :: rest)) as Hrep.
    destruct (forallb (fun df' => labels_eqb (columns df') (columns df)) rest).
    + split; [discriminate|].
      intros [[E _]|(Hd & _)]; [discriminate|].
      apply Hsame in Hd. discriminate.
    + destruct (existsb (fun df' => has_duplicates (columns df')) (df :: rest)).
      * split.
        -- intros E. inversion E. right.
           split; [now apply Hsame|]. split; [now apply Hrep | reflexivity].
        -- intros [[E _]|(_ & _ & ->)]; [discriminate | reflexivity].
      * split; [discriminate|].
        intros [[E _]|(_ & Hr & _)]; [discriminate|].
        apply Hrep in Hr. discriminate.
Qed.

(** C4, as the code has it: an eligible file whose content is entirely
    empty adds no frame to the concatenation, and ingestion raises exactly
    when some eligible file cannot be read, or no eligible file has content
    (as when there is no eligible file at all), or the eligible files with
    content carry different labels and one of them carries a label twice
    once the labels are stripped; otherwise it returns the concatenation of
    the eligible frames that have content. *)
Theorem load_all_excels_spec (folder : list File)
    (Hwf : forall f df, In f folder -> read_excel f = Some df -> well_formed df) :
  let eligible := valid_files folder in
  (raises (load_all_excels folder) <->
     (exists f, In f eligible /\ read_excel f = None) \/
     (forall f df, In f eligible -> read_excel f = Some df ->
                   entirely_empty df) \/
     (labels_differ (contentful eligible) /\
      repeated_label (contentful eligible))) /\
  (forall out, load_all_excels folder = inr out ->
               concat (contentful eligible) = inr out) /\
  (forall f df, In f eligible -> read_excel f = Some df ->
                entirely_empty df -> contentful [f] = []) /\
  (eligible = [] -> raises (load_all_excels folder)).
Proof.
  intros eligible.
  assert (Hwf' : forall f df, In f eligible -> read_excel f = Some df ->
                              well_formed df).
  { intros f df Hin. apply Hwf. now apply valid_files_spec in Hin. }
  assert (Hload : existsb unreadable eligible = false ->
                  load_all_excels folder = concat (contentful eligible)).
  { intros Hr. unfold load_all_excels. fold eligible.
    now rewrite (@read_files_readable eligible [] Hwf' Hr). }
  assert (Hraise : raises (load_all_excels folder) <->
     (exists f, In f eligible /\ read_excel f = None) \/
     (forall f df, In f eligible -> read_excel f = Some df ->
                   entirely_empty df) \/
     (labels_differ (contentful eligible) /\
      repeated_label (contentful eligible))).
  { rewrite <- unreadable_exists, <- contentful_nil.
    destruct (existsb unreadable eligible) eqn:Hr.
    - split; [now left|]. intros _.
      destruct (@read_files_unreadable eligible [] Hr) as [e He].
      exists e. unfold load_all_excels. fold eligible. now rewrite He.
    - rewrite (Hload eq_refl). split.
      + intros [e He]. right. apply concat_raises in He.
        destruct He as [[E _]|(Hd & Hrep & _)]; [now left | now right].
      + intros [H|[H|[Hd Hrep]]]; [discriminate| |].
        * eexists. apply concat_raises. left. now split.
        * eexists. apply concat_raises. right. now repeat split. }
  split; [exact Hraise|]. split; [|split].
  - intros out Hout.
    destruct (existsb unreadable eligible) eqn:Hr.
    + destruct (@read_files_unreadable eligible [] Hr) as [e He].
      unfold load_all_excels in Hout. fold eligible in Hout.
      rewrite He in Hout. discriminate.
    + now rewrite <- (Hload eq_refl).
  - intros f df _ Hr He. apply contentful_nil.
    intros f' df' [<-|[]] Hr'.
    assert (Edf : df' = df) by congruence. now rewrite Edf.
  - intros E. apply Hraise. right. left. rewrite E. intros f df [].
Qed.

(** A folder with a header-only workbook, a lock file, a text file and a
    workbook of one alarm: the result is the frame of the one alarm. *)
Lemma load_all_excels_spec_witness :
  (forall f df, In f folder_mixed -> read_excel f = Some df -> well_formed df) /\
  valid_files folder_mixed =
    [ {| name := "empty.xlsx"; read_excel := Some header_only |};
      {| name := "jan.xlsx"; read_excel := Some one_alarm |} ] /\
  load_all_excels folder_mixed =
    inr {| columns := ["Section"; "Alert Time"]; data := data one_alarm |} /\
  concat (contentful (valid_files folder_mixed)) =
    inr {| columns := ["Section"; "Alert Time"]; data := data one_alarm |}.
Proof.
  assert (H : forall f df, In f folder_mixed -> read_excel f = Some df ->
                           well_formed df).
  { intros f df [<-|[<-|[<-|[<-|[]]]]] E; inversion E; subst;
      unfold well_formed; simpl; repeat constructor. }
  split; [exact H|]. split; [reflexivity|].
  assert (E : load_all_excels folder_mixed =
              inr {| columns := ["Section"; "Alert Time"];
                     data := data one_alarm |}) by reflexivity.
  split; [exact E|].
  exact (proj1 (proj2 (@load_all_excels_spec folder_mixed H)) _ E).
Defined.

Example colliding_labels_raise :
  load_all_excels folder_colliding =
    inl (InvalidIndexError
           "Reindexing only valid with uniquely valued Index objects") /\
  load_all_excels
    [ {| name := "feb.xlsx"; read_excel := Some two_sections |} ] =
    inr {| columns := ["Section"; "Section"; "Alert Time"];
           data := data two_sections |}.
Proof. split; reflexivity. Qed.

(** C4, as the specification has it, fails: a folder whose only eligible
    file is a workbook with a header row and no data has an eligible file,
    and every eligible file can be read, yet ingestion raises. *)
Lemma empty_workbook_alone_raises :
  valid_files folder_header_only = folder_header_only /\
  (forall f, In f (valid_files folder_header_only) ->
             read_excel f = Some header_only) /\
  entirely_empty header_only /\
  load_all_excels folder_header_only =
    inl (ValueError "No objects to concatenate") /\
  ~ (raises (load_all_excels folder_header_only) <->
     valid_files folder_header_only = [] \/
     exists f, In f (valid_files folder_header_only) /\ read_excel f = None).
Proof.
  split; [reflexivity|]. split; [|split; [|split]].
  - intros f [<-|[]]. reflexivity.
  - intros row [].
  - reflexivity.
  - intros [H _].
    destruct H as [H|[f [Hf Hr]]].
    + eexists. reflexivity.
    + discriminate.
    + destruct Hf as [<-|[]]. discriminate.
Qed.

(** * Further properties of the code *)

(** ** Classification and the filter *)

Lemma on_or_before_trans (a b c : date) :
  on_or_before a b -> on_or_before b c -> on_or_before a c.
Proof. unfold on_or_before. lia. Qed.

Lemma on_or_before_not_lt (a b : date) : on_or_before a b -> ~ date_lt b a.
Proof. rewrite date_lt_spec. unfold on_or_before. lia. Qed.

Lemma filter_all_false {A} (f : A -> bool) (l : list A) :
  (forall a, In a l -> f a = false) -> filter f l = [].
Proof.
  intros H. apply filter_nil_existsb.
  destruct (existsb f l) eqn:E; trivial.
  apply existsb_exists in E. destruct E as [a [Ha Hf]].
  rewrite (H a Ha) in Hf. discriminate.
Qed.

Lemma mask_split (alarm_type : string) (start_date end_date : date)
    (section : string) (r : Row) :
  mask alarm_type start_date end_date section r =
  String.eqb (Alarm_Type r) alarm_type &&
  dated_in_section start_date end_date section r.
Proof. unfold mask, dated_in_section. now rewrite !andb_assoc. Qed.

(** X1: the hour of an alert decides its alarm type but for the last hour
    of the window: an alert of the hours 6 to 21 is a Day alarm, an alert of
    the hours 0 to 5 or 23 a Night alarm, an alert of hour 22 a Day alarm
    only at 22:00:00 sharp; so a Day alarm has an hour from 6 to 22. *)
Theorem alarm_type_by_hour (r : RawRow) (t : Timestamp)
    (Ht : Alert_Time r = Some t) (Hvalid : valid_time (Timestamp_time t)) :
  let e := preprocess r in
  let h := hour (Timestamp_time t) in
  Hour e = Some h /\
  (6 <= h <= 21 -> Alarm_Type e = "Day") /\
  (h <= 5 \/ 23 <= h -> Alarm_Type e = "Night") /\
  (h = 22 ->
   (Alarm_Type e = "Day" <->
    minute (Timestamp_time t) = 0 /\ second (Timestamp_time t) = 0 /\
    microsecond (Timestamp_time t) = 0)) /\
  (Alarm_Type e = "Day" -> 6 <= h <= 22).
Proof.
  simpl. rewrite Ht. simpl.
  pose proof (day_window_test Hvalid) as Hw.
  unfold in_day_window, micros_of_day, time_hms in Hw. simpl in Hw.
  unfold valid_time in Hvalid.
  split; [reflexivity|].
  destruct (time_le (time_hm 6 0) (Timestamp_time t) &&
            time_le (Timestamp_time t) (time_hm 22 0)).
  - assert (Hin := proj1 Hw eq_refl).
    split; [reflexivity|]. split; [intros; lia|].
    split; [|intros; lia].
    intros H22. split; [intros _; lia | reflexivity].
  - assert (Hout : ~ (21600000000 <=
                      ((hour (Timestamp_time t) * 60 + minute (Timestamp_time t)) * 60 +
                       second (Timestamp_time t)) * 1000000 +
                      microsecond (Timestamp_time t) <= 79200000000)).
    { intros Hin. apply Hw in Hin. discriminate. }
    split; [intros; lia|]. split; [reflexivity|].
    split; [|discriminate].
    intros H22. split; [discriminate | intros; lia].
Qed.

(** The alarm of 07:00 has hour 7 and is a Day alarm. *)
Lemma alarm_type_by_hour_witness :
  Alert_Time alarm_0700 = Some (at_time jan_1_2024 7 0 0) /\
  valid_time (Timestamp_time (at_time jan_1_2024 7 0 0)) /\
  Hour (preprocess alarm_0700) = Some 7 /\
  Alarm_Type (preprocess alarm_0700) = "Day".
Proof.
  assert (Hv : valid_time (Timestamp_time (at_time jan_1_2024 7 0 0)))
    by (unfold valid_time; simpl; lia).
  split; [reflexivity|]. split; [exact Hv|].
  destruct (@alarm_type_by_hour alarm_0700 _ eq_refl Hv) as (Hh & Hday & _).
  split; [exact Hh|]. apply Hday. simpl. lia.
Defined.

Lemma preprocess_dated (r : RawRow) (d : date) :
  Date (preprocess r) = Some d ->
  Alert_Time r <> None /\ Hour (preprocess r) <> None /\
  (Alarm_Type (preprocess r) = "Day" \/ Alarm_Type (preprocess r) = "Night").
Proof.
  simpl. destruct (Alert_Time r) as [t|]; simpl; [|discriminate].
  intros _. repeat split; try discriminate.
  destruct (time_le (time_hm 6 0) (Timestamp_time t) &&
            time_le (Timestamp_time t) (time_hm 22 0)); auto.
Qed.

(** X2: an event whose alert time is null is in no filtered set, whatever
    is asked for: every filtered event has an alert time and an hour and is
    a Day or a Night alarm, and asking for the alarm type Unknown selects
    nothing. *)
Theorem unknown_is_never_selected (rows : list RawRow) (alarm_type : string)
    (start_date end_date : date) (section : string) :
  Forall (fun r => Alert_Time (raw r) <> None /\ Hour r <> None /\
                   (Alarm_Type r = "Day" \/ Alarm_Type r = "Night"))
    (filtered_rows (map preprocess rows) alarm_type start_date end_date
       section) /\
  filtered_rows (map preprocess rows) "Unknown" start_date end_date section =
    [].
Proof.
  assert (H : forall a, Forall
            (fun r => Alert_Time (raw r) <> None /\ Hour r <> None /\
                      (Alarm_Type r = "Day" \/ Alarm_Type r = "Night"))
            (filtered_rows (map preprocess rows) a start_date end_date section)).
  { intros a. apply Forall_forall. intros r Hr.
    apply filter_In in Hr. destruct Hr as [Hr Hm].
    apply mask_spec in Hm. destruct Hm as (_ & [d [Hd _]] & _).
    apply in_map_iff in Hr. destruct Hr as [r0 [<- _]].
    now apply preprocess_dated with d. }
  split; [apply H|].
  specialize (H "Unknown").
  destruct (filtered_rows (map preprocess rows) "Unknown" start_date end_date
              section) as [|r l] eqn:E; trivial.
  assert (Hr : In r (filtered_rows (map preprocess rows) "Unknown" start_date
                       end_date section)) by (rewrite E; now left).
  apply filter_In in Hr. destruct Hr as [_ Hm].
  apply mask_spec in Hm. destruct Hm as (Hu & _).
  inversion H as [|r' l' (_ & _ & [Hd|Hn]) _]; subst; congruence.
Qed.

(** X3: a range whose end date is before its start date selects nothing:
    the filtered set is empty and the histogram has no sample. *)
Theorem reversed_range_selects_nothing (df_raw : list Row)
    (alarm_type : string) (start_date end_date : date) (section : string)
    (Hrev : date_lt end_date start_date) :
  filtered_rows df_raw alarm_type start_date end_date section = [] /\
  samples (update_alarm_count_graph df_raw alarm_type start_date end_date
             section) = [].
Proof.
  assert (E : filtered_rows df_raw alarm_type start_date end_date section = []).
  { apply filter_all_false. intros r _.
    destruct (mask alarm_type start_date end_date section r) eqn:Hm; trivial.
    apply mask_spec in Hm. destruct Hm as (_ & [d (_ & H1 & H2)] & _).
    exfalso. exact (on_or_before_not_lt (on_or_before_trans H1 H2) Hrev). }
  split; [exact E|].
  unfold update_alarm_count_graph. rewrite E.
  now destruct (date_eqb start_date end_date).
Qed.

(** From the second to the first of January 2024. *)
Lemma reversed_range_selects_nothing_witness :
  date_lt jan_1_2024 jan_2_2024 /\
  filtered_rows (map preprocess [alarm_0500; alarm_0700]) "Day" jan_2_2024
    jan_1_2024 "A" = [].
Proof.
  assert (H : date_lt jan_1_2024 jan_2_2024) by reflexivity.
  split; [exact H|].
  exact (proj1 (@reversed_range_selects_nothing
                  (map preprocess [alarm_0500; alarm_0700]) "Day" jan_2_2024
                  jan_1_2024 "A" H)).
Defined.

(** X4: filtering a filtered set again with a range inside the first one
    gives what the inner range gives on the store. *)
Theorem narrowing_the_range (df_raw : list Row) (alarm_type : string)
    (start_date end_date start_date' end_date' : date) (section : string)
    (Hstart : on_or_before start_date start_date')
    (Hend : on_or_before end_date' end_date) :
  filtered_rows
    (filtered_rows df_raw alarm_type start_date end_date section)
    alarm_type start_date' end_date' section =
  filtered_rows df_raw alarm_type start_date' end_date' section.
Proof.
  unfold filtered_rows. rewrite filter_filter. apply filter_ext_eq. intros r.
  destruct (mask alarm_type start_date' end_date' section r) eqn:Hm.
  - rewrite andb_true_r. apply mask_spec.
    apply mask_spec in Hm. destruct Hm as (Ha & [d (Hd & H1 & H2)] & Hs).
    split; [exact Ha|]. split; [|exact Hs].
    exists d. split; [exact Hd|].
    split; eapply on_or_before_trans; eassumption.
  - apply andb_false_r.
Qed.

(** The first of January 2024 inside the days around it. *)
Lemma narrowing_the_range_witness :
  on_or_before dec_31_2023 jan_1_2024 /\
  on_or_before jan_1_2024 jan_2_2024 /\
  filtered_rows
    (filtered_rows (map preprocess [alarm_0500; alarm_0700]) "Day"
       dec_31_2023 jan_2_2024 "A")
    "Day" jan_1_2024 jan_1_2024 "A" =
  filtered_rows (map preprocess [alarm_0500; alarm_0700]) "Day" jan_1_2024
    jan_1_2024 "A".
Proof.
  assert (H1 : on_or_before dec_31_2023 jan_1_2024)
    by (unfold on_or_before; simpl; lia).
  assert (H2 : on_or_before jan_1_2024 jan_2_2024)
    by (unfold on_or_before; simpl; lia).
  split; [exact H1|]. split; [exact H2|].
  exact (@narrowing_the_range (map preprocess [alarm_0500; alarm_0700]) "Day"
           dec_31_2023 jan_2_2024 jan_1_2024 jan_1_2024 "A" H1 H2).
Defined.

(** X5: the two choices of the alarm-type dropdown split the dated events
    of a section: every event of the section dated in the range is in the
    filtered set of Day or in that of Night, never in both. *)
Theorem day_night_partition (rows : list RawRow) (start_date end_date : date)
    (section : string) :
  let df_raw := map preprocess rows in
  let day := filtered_rows df_raw "Day" start_date end_date section in
  let night := filtered_rows df_raw "Night" start_date end_date section in
  (List.length day + List.length night =
   List.length (filter (dated_in_section start_date end_date section) df_raw))%nat /\
  (forall r, In r day -> ~ In r night) /\
  (forall r, In r df_raw ->
     dated_in_section start_date end_date section r = true ->
     In r day \/ In r night).
Proof.
  intros df_raw day night. split; [|split].
  - unfold day, night, df_raw, filtered_rows.
    induction rows as [|r rows IH]; [reflexivity|].
    cbn [map filter]. rewrite !mask_split.
    destruct (dated_in_section start_date end_date section (preprocess r))
      eqn:Hd.
    + rewrite !andb_true_r.
      unfold dated_in_section, Series_ge in Hd.
      destruct (Date (preprocess r)) as [d|] eqn:Ed; [|discriminate].
      destruct (preprocess_dated r Ed) as (_ & _ & [Ht|Ht]); rewrite Ht.
      * change (String.eqb "Day" "Day") with true.
        change (String.eqb "Day" "Night") with false.
        cbn [List.length]. cbv zeta in IH. lia.
      * change (String.eqb "Night" "Day") with false.
        change (String.eqb "Night" "Night") with true.
        cbn [List.length]. cbv zeta in IH. lia.
    + rewrite !andb_false_r. exact IH.
  - intros r Hday Hnight.
    apply filter_In in Hday, Hnight.
    destruct Hday as [_ Hday], Hnight as [_ Hnight].
    apply mask_spec in Hday, Hnight.
    destruct Hday as [Hd _], Hnight as [Hn _]. congruence.
  - intros r Hr Hd. unfold day, night, filtered_rows.
    rewrite !filter_In, !mask_split, Hd, !andb_true_r.
    apply in_map_iff in Hr. destruct Hr as [r0 [<- Hr0]].
    unfold dated_in_section, Series_ge in Hd.
    destruct (Date (preprocess r0)) as [d|] eqn:Ed; [|discriminate].
    assert (Hin : In (preprocess r0) df_raw) by (apply in_map; exact Hr0).
    destruct (preprocess_dated r0 Ed) as (_ & _ & [Ht|Ht]); rewrite Ht;
      [left | right]; now split.
Qed.

(** ** The sections *)

Lemma dropna_In {A} (a : A) (xs : list (option A)) :
  In a (dropna xs) <-> In (Some a) xs.
Proof.
  induction xs as [|[b|] xs IH]; simpl.
  - tauto.
  - rewrite IH. split; intros [E|H]; auto; left; congruence.
  - rewrite IH. split; [auto | intros [E|H]; [discriminate | exact H]].
Qed.

Lemma seen_spec (a : string) (seen : list string) :
  existsb (String.eqb a) seen = true <-> In a seen.
Proof.
  rewrite existsb_exists. split.
  - intros [b [Hb E]]. apply String.eqb_eq in E. now subst.
  - intros H. exists a. split; [exact H | apply String.eqb_refl].
Qed.

Lemma unique_seen_In (a : string) (seen xs : list string) :
  In a (unique_seen seen xs) <-> In a xs /\ ~ In a seen.
Proof.
  revert seen. induction xs as [|b xs IH]; intros seen; simpl.
  - tauto.
  - destruct (existsb (String.eqb b) seen) eqn:E.
    + apply seen_spec in E. rewrite IH. split.
      * intros [H1 H2]. auto.
      * intros [[->|H1] H2]; [contradiction | auto].
    + assert (Hb : ~ In b seen).
      { intros H. apply seen_spec in H. congruence. }
      simpl. rewrite IH. simpl. split.
      * intros [->|[H1 H2]]; [auto | split; auto].
      * intros [[->|H1] H2]; [auto|].
        destruct (string_dec b a) as [->|N]; [auto | right; split; tauto].
Qed.

Lemma unique_seen_NoDup (seen xs : list string) : NoDup (unique_seen seen xs).
Proof.
  revert seen. induction xs as [|b xs IH]; intros seen; simpl.
  - constructor.
  - destruct (existsb (String.eqb b) seen); [apply IH|].
    constructor; [|apply IH].
    rewrite unique_seen_In. simpl. tauto.
Qed.

Lemma unique_seen_filter (seen xs : list string) :
  unique_seen seen xs =
  filter (fun a => negb (existsb (String.eqb a) seen)) (unique xs).
Proof.
  unfold unique. revert seen. induction xs as [|b xs IH]; intros seen.
  - reflexivity.
  - cbn [unique_seen existsb filter].
    rewrite (IH [b]), (IH seen), (IH (b :: seen)), filter_filter.
    destruct (existsb (String.eqb b) seen) eqn:E; cbn [negb].
    + apply filter_ext_eq. intros a. cbn [existsb]. rewrite orb_false_r.
      destruct (String.eqb a b) eqn:Eab; cbn [negb andb]; trivial.
      apply String.eqb_eq in Eab. subst. now rewrite E.
    + f_equal. apply filter_ext_eq. intros a. cbn [existsb].
      rewrite orb_false_r, negb_orb. reflexivity.
Qed.

(** X6: the sections offered by the dropdown are the non-null sections of
    the store, each once, in the order in which they first appear; the
    dropdown starts with the section of the first event that has one, and
    has no starting value (an IndexError) when no event has a section. *)
Theorem sections_spec (df_raw : list Row) :
  NoDup (sections df_raw) /\
  (forall s, In s (sections df_raw) <->
             exists r, In r df_raw /\ Section_ (raw r) = Some s) /\
  (forall r,
     sections (r :: df_raw) =
     match Section_ (raw r) with
     | Some s => s :: filter (fun s' => negb (String.eqb s' s)) (sections df_raw)
     | None => sections df_raw
     end) /\
  section_default df_raw =
    hd_error (dropna (map (fun r => Section_ (raw r)) df_raw)) /\
  (section_default df_raw = None <->
   forall r, In r df_raw -> Section_ (raw r) = None).
Proof.
  assert (Hin : forall s, In s (sections df_raw) <->
                          exists r, In r df_raw /\ Section_ (raw r) = Some s).
  { intros s. unfold sections, unique.
    rewrite unique_seen_In, dropna_In, in_map_iff. split.
    - intros [[r [E Hr]] _]. now exists r.
    - intros [r [Hr E]]. split; [now exists r | intros []]. }
  assert (Hhd : section_default df_raw =
                hd_error (dropna (map (fun r => Section_ (raw r)) df_raw))).
  { unfold section_default, sections, unique.
    now destruct (dropna (map (fun r => Section_ (raw r)) df_raw)). }
  split; [apply unique_seen_NoDup|]. split; [exact Hin|]. split; [|split].
  - intros r. unfold sections. cbn [map dropna].
    destruct (Section_ (raw r)) as [s|]; [|reflexivity].
    unfold unique at 1. cbn [unique_seen existsb].
    rewrite unique_seen_filter. f_equal. apply filter_ext_eq. intros a.
    cbn [existsb]. now rewrite orb_false_r.
  - exact Hhd.
  - split.
    + intros Hnone r Hr.
      destruct (Section_ (raw r)) as [s|] eqn:E; trivial.
      assert (Hs : In s (sections df_raw)) by (apply Hin; now exists r).
      unfold section_default in Hnone.
      destruct (sections df_raw); [contradiction | discriminate].
    + intros Hnone. unfold section_default.
      destruct (sections df_raw) as [|s l]; trivial.
      assert (Hs : In s (s :: l)) by now left.
      apply Hin in Hs. destruct Hs as [r [Hr Es]].
      rewrite (Hnone r Hr) in Es. discriminate.
Qed.

Example sections_example :
  sections (map preprocess
              [alarm_0500; alarm_0700; alarm_at None]) = ["A"] /\
  section_default [] = None.
Proof. split; reflexivity. Qed.

(** X7: a section that is not among the sections of the dropdown selects
    nothing: the filtered set is empty and the histogram has no sample. *)
Theorem unlisted_section_selects_nothing (df_raw : list Row)
    (alarm_type : string) (start_date end_date : date) (section : string)
    (Hnew : ~ In section (sections df_raw)) :
  filtered_rows df_raw alarm_type start_date end_date section = [] /\
  samples (update_alarm_count_graph df_raw alarm_type start_date end_date
             section) = [].
Proof.
  assert (E : filtered_rows df_raw alarm_type start_date end_date section = []).
  { apply filter_all_false. intros r Hr.
    destruct (mask alarm_type start_date end_date section r) eqn:Hm; trivial.
    apply mask_spec in Hm. destruct Hm as (_ & _ & Hs).
    exfalso. apply Hnew. unfold sections, unique.
    rewrite unique_seen_In, dropna_In, in_map_iff.
    split; [now exists r | intros []]. }
  split; [exact E|].
  unfold update_alarm_count_graph. rewrite E.
  now destruct (date_eqb start_date end_date).
Qed.

(** The store has the section A only; section B selects nothing. *)
Lemma unlisted_section_selects_nothing_witness :
  ~ In "B" (sections (map preprocess [alarm_0500; alarm_0700])) /\
  filtered_rows (map preprocess [alarm_0500; alarm_0700]) "Day" jan_1_2024
    jan_2_2024 "B" = [].
Proof.
  assert (H : ~ In "B" (sections (map preprocess [alarm_0500; alarm_0700]))).
  { intros [E|[]]. discriminate E. }
  split; [exact H|].
  exact (proj1 (@unlisted_section_selects_nothing
                  (map preprocess [alarm_0500; alarm_0700]) "Day" jan_1_2024
                  jan_2_2024 "B" H)).
Defined.

(** ** The aggregates *)

Lemma key_counted_once (d0 : date) (keys : list date) :
  NoDup keys -> In d0 keys ->
  total (map (fun d => if date_eqb d0 d then 1 else 0) keys) = 1.
Proof.
  induction 1 as [|k keys Hk Hnd IH]; intros Hin; [contradiction|].
  cbn [map total fold_right]. fold (total (map (fun d => if date_eqb d0 d then 1 else 0) keys)).
  destruct (date_eqb d0 k) eqn:E.
  - apply date_eqb_eq in E. subst k.
    assert (Z0 : total (map (fun d => if date_eqb d0 d then 1 else 0) keys) = 0).
    { clear IH Hin Hnd. induction keys as [|k keys IH]; [reflexivity|].
      cbn [map total fold_right].
      fold (total (map (fun d => if date_eqb d0 d then 1 else 0) keys)).
      destruct (date_eqb d0 k) eqn:E.
      - apply date_eqb_eq in E. subst. exfalso. apply Hk. now left.
      - rewrite IH; [reflexivity | intros H; apply Hk; now right]. }
    lia.
  - destruct Hin as [->|Hin]; [now rewrite date_eqb_refl in E|].
    rewrite IH by assumption. reflexivity.
Qed.

(** The buckets of a set of keys that holds every date of [l] hold every
    row of [l] once. *)
Lemma buckets_cover (keys : list date) (l : list Row) :
  NoDup keys ->
  (forall r, In r l -> exists d, Date r = Some d /\ In d keys) ->
  total (map (fun d => Z.of_nat (List.length (filter (in_group d) l))) keys) =
  Z.of_nat (List.length l).
Proof.
  intros Hnd. induction l as [|r l IH]; intros Hcover.
  - clear Hnd Hcover. induction keys as [|k keys IHk]; [reflexivity|].
    simpl in *. lia.
  - destruct (Hcover r (or_introl eq_refl)) as [d0 [Hd0 Hin]].
    rewrite (map_ext _
               (fun d => (if date_eqb d0 d then 1 else 0) +
                         Z.of_nat (List.length (filter (in_group d) l)))).
    + rewrite (total_add (fun d => if date_eqb d0 d then 1 else 0)
                 (fun d => Z.of_nat (List.length (filter (in_group d) l)))).
      rewrite key_counted_once, IH by (auto; intros; apply Hcover; now right).
      cbn [List.length]. lia.
    + intros d. cbn [filter]. unfold in_group at 1. rewrite Hd0.
      destruct (date_eqb d0 d); cbn [List.length]; lia.
Qed.

Lemma filter_comm {A} (f g : A -> bool) (l : list A) :
  filter f (filter g l) = filter g (filter f l).
Proof.
  rewrite !filter_filter. apply filter_ext_eq. intros a. apply andb_comm.
Qed.

Lemma filtered_keys_cover (df_raw : list Row) (alarm_type : string)
    (start_date end_date : date) (section : string) (f : Row -> bool) (r : Row) :
  let filtered := filtered_rows df_raw alarm_type start_date end_date section in
  In r (filter f filtered) ->
  exists d, Date r = Some d /\ In d (group_keys filtered).
Proof.
  intros filtered Hr. apply filter_In in Hr. destruct Hr as [Hr _].
  assert (Hm := Hr). apply filter_In in Hm. destruct Hm as [_ Hm].
  apply mask_spec in Hm. destruct Hm as (_ & [d [Hd _]] & _).
  exists d. split; [exact Hd|]. apply group_keys_In. now exists r.
Qed.

(** The verified and the unverified counts of the summary add up to the
    verified and the unverified events of the filtered set. *)
Lemma summary_verified_totals (df_raw : list Row) (alarm_type : string)
    (start_date end_date : date) (section : string) :
  let filtered := filtered_rows df_raw alarm_type start_date end_date section in
  let summary := verify_summary df_raw alarm_type start_date end_date section in
  total (map verified summary) =
    Z.of_nat (List.length (filter Verified filtered)) /\
  total (map unverified summary) =
    Z.of_nat (List.length (filter (fun r => negb (Verified r)) filtered)).
Proof.
  intros filtered summary.
  unfold summary, verify_summary, groupby_Date. fold filtered.
  rewrite !map_map. cbn [agg verified unverified fst snd]. split.
  - rewrite (map_ext _ (fun d => Z.of_nat (List.length
               (filter (in_group d) (filter Verified filtered))))).
    + apply buckets_cover; [apply sorted_NoDup, group_keys_sorted|].
      intros r Hr.
      exact (@filtered_keys_cover df_raw alarm_type start_date end_date
               section Verified r Hr).
    + intros d. now rewrite Series_sum_filter, filter_comm.
  - rewrite (map_ext _ (fun d => Z.of_nat (List.length
               (filter (in_group d)
                  (filter (fun r => negb (Verified r)) filtered))))).
    + apply buckets_cover; [apply sorted_NoDup, group_keys_sorted|].
      intros r Hr.
      exact (@filtered_keys_cover df_raw alarm_type start_date end_date
               section (fun r => negb (Verified r)) r Hr).
    + intros d. unfold Series_invert.
      rewrite map_map, (Series_sum_filter (fun r => negb (Verified r))).
      now rewrite filter_comm.
Qed.

Lemma bucket_total (rows : list RawRow) (alarm_type : string)
    (start_date end_date : date) (section : string) (d : date) :
  let filtered :=
    filtered_rows (map preprocess rows) alarm_type start_date end_date section in
  Series_count (map (fun r => Alert_Time (raw r)) (filter (in_group d) filtered)) =
  Z.of_nat (List.length (filter (in_group d) filtered)).
Proof.
  intros filtered. apply Series_count_notnull. apply Forall_forall. intros r Hr.
  apply filter_In in Hr. destruct Hr as [Hr Hg].
  apply in_group_spec in Hg.
  apply filter_In in Hr. destruct Hr as [Hr _].
  apply in_map_iff in Hr. destruct Hr as [r0 [<- _]].
  now apply preprocess_Date_Alert_Time with d.
Qed.

(** X8: the summary accounts for every filtered event once: over all
    dates, the totals add up to the size of the filtered set, the verified
    counts to its verified events and the unverified counts to its
    unverified events. *)
Theorem summary_accounts_for_all (rows : list RawRow) (alarm_type : string)
    (start_date end_date : date) (section : string) :
  let df_raw := map preprocess rows in
  let filtered := filtered_rows df_raw alarm_type start_date end_date section in
  let summary := verify_summary df_raw alarm_type start_date end_date section in
  total (map total_alarms summary) = Z.of_nat (List.length filtered) /\
  total (map verified summary) =
    Z.of_nat (List.length (filter Verified filtered)) /\
  total (map unverified summary) =
    Z.of_nat (List.length (filter (fun r => negb (Verified r)) filtered)).
Proof.
  intros df_raw filtered summary. split.
  - unfold summary, verify_summary, groupby_Date. fold filtered.
    rewrite !map_map. cbn [agg total_alarms fst snd].
    rewrite (map_ext _ (fun d => Z.of_nat (List.length
               (filter (in_group d) filtered)))).
    + apply buckets_cover; [apply sorted_NoDup, group_keys_sorted|].
      intros r Hr.
      apply (@filtered_keys_cover df_raw alarm_type start_date end_date
               section (fun _ => true) r).
      apply filter_In. now split.
    + intros d. apply bucket_total.
  - apply summary_verified_totals.
Qed.

(** X9: the rows of the summary come in ascending order of date, no date
    twice, and every date lies in the requested range. *)
Theorem summary_sorted_in_range (df_raw : list Row) (alarm_type : string)
    (start_date end_date : date) (section : string) :
  let summary := verify_summary df_raw alarm_type start_date end_date section in
  StronglySorted date_lt (map summary_Date summary) /\
  Forall (fun b => on_or_before start_date (summary_Date b) /\
                   on_or_before (summary_Date b) end_date) summary.
Proof.
  intros summary.
  assert (Hkeys : map summary_Date summary =
                  group_keys (filtered_rows df_raw alarm_type start_date
                                end_date section)).
  { unfold summary, verify_summary, groupby_Date.
    rewrite !map_map. simpl. apply map_id. }
  split.
  - rewrite Hkeys. apply group_keys_sorted.
  - apply Forall_forall. intros b Hb.
    assert (Hd : In (summary_Date b) (map summary_Date summary))
      by now apply in_map.
    rewrite Hkeys in Hd. apply group_keys_In in Hd.
    destruct Hd as [r [Hr Hd]].
    apply filter_In in Hr. destruct Hr as [_ Hm].
    apply mask_spec in Hm. destruct Hm as (_ & [d (Ed & H1 & H2)] & _).
    assert (E : d = summary_Date b) by congruence. subst d. now split.
Qed.

(** X10: the table lists the unverified events the summary counts, less
    those without a chainage, a latitude or a longitude: the rows of the
    table and the unverified events left out add up to the unverified
    counts of the summary. *)
Theorem table_rows_and_unverified_counts (df_raw : list Row)
    (alarm_type : string) (start_date end_date : date) (section : string) :
  let filtered := filtered_rows df_raw alarm_type start_date end_date section in
  let summary := verify_summary df_raw alarm_type start_date end_date section in
  let table :=
    update_unverified_table df_raw alarm_type start_date end_date section in
  Z.of_nat (List.length table) +
  Z.of_nat (List.length (filter unverified_unlocated filtered)) =
  total (map unverified summary) /\
  Z.of_nat (List.length table) <= total (map unverified summary).
Proof.
  intros filtered summary table.
  assert (E : Z.of_nat (List.length table) +
              Z.of_nat (List.length (filter unverified_unlocated filtered)) =
              total (map unverified summary)).
  { unfold summary.
    rewrite (proj2 (summary_verified_totals df_raw alarm_type start_date
                      end_date section)).
    fold filtered.
    unfold table, update_unverified_table.
    rewrite unverified_selection, length_map. fold filtered.
    pose proof (filter_length_split
                  (fun r => notnull (Chainage (raw r)) &&
                            notnull (Latitude (raw r)) &&
                            notnull (Longitude (raw r)))
                  (filter (fun r => negb (Verified r)) filtered)) as Hsplit.
    rewrite !filter_filter in Hsplit.
    rewrite (filter_ext_eq unverified_located
               (fun a => negb (Verified a) &&
                         (notnull (Chainage (raw a)) &&
                          notnull (Latitude (raw a)) &&
                          notnull (Longitude (raw a)))))
      by (intros a; unfold unverified_located; now rewrite !andb_assoc).
    unfold unverified_unlocated. lia. }
  split; [exact E | lia].
Qed.

Example table_and_counts_example :
  let df_raw := map preprocess [alarm_0500; alarm_0530; alarm_0700] in
  List.length (update_unverified_table df_raw "Night" jan_1_2024 jan_1_2024 "A")
    = 2%nat /\
  map unverified (verify_summary df_raw "Night" jan_1_2024 jan_1_2024 "A") = [2].
Proof. split; reflexivity. Qed.

Lemma on_or_before_antisym (a b : date) :
  on_or_before a b -> on_or_before b a -> a = b.
Proof.
  destruct a as [ya ma da], b as [yb mb db]. unfold on_or_before. simpl.
  intros H1 H2. f_equal; lia.
Qed.

Lemma filter_all_true {A} (f : A -> bool) (l : list A) :
  (forall a, In a l -> f a = true) -> filter f l = l.
Proof.
  induction l as [|a l IH]; intros H; simpl; trivial.
  rewrite (H a (or_introl eq_refl)), IH; trivial.
  intros b Hb. apply H. now right.
Qed.

(** X11: the two graphs agree.  Over several days the bar of a date in the
    histogram is as high as the total of that date in the summary, and the
    dates with a bar are the dates of the summary; over one day the summary
    has at most one row, for that day, and its total is the number of
    samples of the hour histogram. *)
Theorem graphs_agree (rows : list RawRow) (alarm_type : string)
    (start_date end_date : date) (section : string) :
  let df_raw := map preprocess rows in
  let fig :=
    update_alarm_count_graph df_raw alarm_type start_date end_date section in
  let summary := verify_summary df_raw alarm_type start_date end_date section in
  (start_date <> end_date ->
     Forall (fun b => bar_height (samples fig) (ADate (summary_Date b)) =
                      total_alarms b) summary /\
     (forall d, 0 < bar_height (samples fig) (ADate d) <->
                In d (map summary_Date summary))) /\
  (start_date = end_date ->
     Forall (fun b => summary_Date b = start_date /\
                      total_alarms b = Z.of_nat (List.length (samples fig)))
       summary /\
     (List.length summary <= 1)%nat).
Proof.
  intros df_raw fig summary.
  set (filtered := filtered_rows df_raw alarm_type start_date end_date section).
  assert (Hkeys : map summary_Date summary = group_keys filtered).
  { unfold summary, verify_summary, groupby_Date. fold filtered.
    rewrite !map_map. simpl. apply map_id. }
  assert (Hbucket : forall b, In b summary ->
            total_alarms b =
            Z.of_nat (List.length (filter (in_group (summary_Date b)) filtered))).
  { intros b Hb. unfold summary, verify_summary, groupby_Date in Hb.
    fold filtered in Hb. rewrite map_map in Hb. apply in_map_iff in Hb.
    destruct Hb as [d [<- _]]. cbn [agg total_alarms summary_Date fst snd].
    apply bucket_total. }
  split.
  - intros N.
    assert (Hs : samples fig = map (fun r => option_map ADate (Date r)) filtered).
    { unfold fig, update_alarm_count_graph.
      now rewrite (proj2 (date_eqb_neq start_date end_date) N). }
    split.
    + apply Forall_forall. intros b Hb.
      now rewrite Hs, bar_height_dates, (Hbucket b Hb).
    + intros d. rewrite Hs, bar_height_dates, filter_length_pos, Hkeys,
        group_keys_In.
      split; intros [r [Hr Hd]]; exists r; split; trivial;
        now apply in_group_spec.
  - intros E. subst end_date.
    assert (Hs : List.length (samples fig) = List.length filtered).
    { unfold fig, update_alarm_count_graph. rewrite date_eqb_refl.
      cbn [samples]. apply length_map. }
    assert (Hday : forall r, In r filtered -> Date r = Some start_date).
    { intros r Hr. apply filter_In in Hr. destruct Hr as [_ Hm].
      apply mask_spec in Hm. destruct Hm as (_ & [d (Ed & H1 & H2)] & _).
      now rewrite Ed, (on_or_before_antisym H2 H1). }
    assert (Hdate : forall d, In d (map summary_Date summary) -> d = start_date).
    { intros d Hd. rewrite Hkeys in Hd. apply group_keys_In in Hd.
      destruct Hd as [r [Hr Hd]]. rewrite (Hday r Hr) in Hd. congruence. }
    split.
    + apply Forall_forall. intros b Hb.
      assert (Eb : summary_Date b = start_date)
        by (apply Hdate; now apply in_map).
      split; [exact Eb|].
      rewrite (Hbucket b Hb), Eb, Hs. f_equal. f_equal.
      apply filter_all_true. intros r Hr. apply in_group_spec. now apply Hday.
    + assert (Hnd : NoDup (map summary_Date summary)).
      { rewrite Hkeys. apply sorted_NoDup, group_keys_sorted. }
      rewrite <- (length_map summary_Date).
      destruct (map summary_Date summary) as [|a [|b l]]; simpl; try lia.
      exfalso. inversion Hnd as [|? ? Ha _]; subst. apply Ha. left.
      rewrite (Hdate a), (Hdate b); simpl; auto.
Qed.

(** X12: an export of nothing is still an export: when no filtered event
    is unverified with a chainage and both coordinates, the button returns
    a workbook whose one sheet has the eight column labels and no data
    row. *)
Theorem export_of_nothing (df_raw : list Row) (n_clicks : Z)
    (alarm_type : string) (start_date end_date : date) (section : string)
    (Hnone : forall r,
       In r (filtered_rows df_raw alarm_type start_date end_date section) ->
       unverified_located r = false) :
  exists file_name,
    download_unverified_excel df_raw (Some export_button) n_clicks alarm_type
      start_date end_date section =
    Some {| content := [ {| sheet_name := "Unverified Alarms";
                            header := download_columns;
                            sheet_rows := [] |} ];
            filename := file_name |}.
Proof.
  assert (E : dropna_subset
                (filter (mask_unverified alarm_type start_date end_date section)
                   df_raw) = []).
  { rewrite unverified_selection. now apply filter_all_false. }
  eexists. unfold download_unverified_excel, export_button.
  simpl negb. cbv iota.
  change (fun r : Row =>
            String.eqb (Alarm_Type r) alarm_type &&
            Series_ge (Date r) start_date && Series_le (Date r) end_date &&
            Series_eq (Section_ (raw r)) section && negb (Verified r))
    with (mask_unverified alarm_type start_date end_date section).
  rewrite E. reflexivity.
Qed.

(** The export of a store whose one Night alarm is verified. *)
Lemma export_of_nothing_witness :
  (forall r,
     In r (filtered_rows [preprocess alarm_0530_resolved] "Night" jan_1_2024
             jan_2_2024 "A") ->
     unverified_located r = false) /\
  exists file_name,
    download_unverified_excel [preprocess alarm_0530_resolved]
      (Some export_button) 1 "Night" jan_1_2024 jan_2_2024 "A" =
    Some {| content := [ {| sheet_name := "Unverified Alarms";
                            header := download_columns;
                            sheet_rows := [] |} ];
            filename := file_name |}.
Proof.
  assert (H : forall r,
            In r (filtered_rows [preprocess alarm_0530_resolved] "Night"
                    jan_1_2024 jan_2_2024 "A") ->
            unverified_located r = false).
  { intros r Hr. apply filter_In in Hr. destruct Hr as [[<-|[]] _].
    reflexivity. }
  split; [exact H|].
  exact (@export_of_nothing [preprocess alarm_0530_resolved] 1 "Night"
           jan_1_2024 jan_2_2024 "A" H).
Defined.

(** ** Ingestion: the files read *)

Lemma list_ascii_of_string_app (a b : string) :
  list_ascii_of_string (a ++ b) =
  (list_ascii_of_string a ++ list_ascii_of_string b)%list.
Proof. induction a as [|c a IH]; simpl; [reflexivity | now rewrite IH]. Qed.

(** A name matches [*.xlsx] exactly when it ends with ".xlsx". *)
Lemma fnmatch_xlsx_name (n : string) :
  fnmatch (list_ascii_of_string "*.xlsx") (list_ascii_of_string n) = true <->
  exists stem, n = stem ++ ".xlsx".
Proof.
  rewrite fnmatch_xlsx. split.
  - intros [stem E]. exists (string_of_list_ascii stem).
    rewrite <- (string_of_list_ascii_of_string n), E.
    rewrite <- (string_of_list_ascii_of_string
                  (string_of_list_ascii stem ++ ".xlsx")).
    f_equal. rewrite list_ascii_of_string_app.
    now rewrite list_ascii_of_string_of_list_ascii.
  - intros [stem ->]. exists (list_ascii_of_string stem).
    apply list_ascii_of_string_app.
Qed.

(** X13: the files read are the entries of the folder whose name ends with
    ".xlsx" and begins neither with a dot nor with the lock-file mark "~$",
    in the order of the folder. *)
Theorem files_read (folder : list File) :
  (forall f, In f (valid_files folder) <->
     In f folder /\
     (exists stem, name f = stem ++ ".xlsx") /\
     startswith (name f) "." = false /\
     startswith (name f) "~$" = false) /\
  (forall more,
     valid_files (folder ++ more) =
     (valid_files folder ++ valid_files more)%list).
Proof.
  split.
  - intros f. unfold valid_files, glob_xlsx.
    rewrite !filter_In, andb_true_iff, !negb_true_iff, fnmatch_xlsx_name.
    tauto.
  - intros more. unfold valid_files, glob_xlsx. now rewrite !filter_app.
Qed.

(** X14: an entry that is not read changes nothing: with or without a lock
    file, a hidden file or a file of another suffix, readable or not, the
    folder loads to the same result. *)
Theorem other_files_are_ignored (before after : list File) (f : File)
    (Hother : startswith (name f) "~$" = true \/
              startswith (name f) "." = true \/
              (forall stem, name f <> stem ++ ".xlsx")) :
  load_all_excels (before ++ f :: after) = load_all_excels (before ++ after).
Proof.
  assert (E : valid_files (before ++ f :: after) = valid_files (before ++ after)).
  { unfold valid_files, glob_xlsx. rewrite !filter_app. cbn [filter].
    destruct Hother as [H|[H|H]].
    - destruct (negb (startswith (name f) ".") &&
                fnmatch (list_ascii_of_string "*.xlsx")
                  (list_ascii_of_string (name f))); trivial.
      cbn [filter]. now rewrite H.
    - now rewrite H.
    - assert (Hf : fnmatch (list_ascii_of_string "*.xlsx")
                     (list_ascii_of_string (name f)) = false).
      { destruct (fnmatch (list_ascii_of_string "*.xlsx")
                    (list_ascii_of_string (name f))) eqn:Em; trivial.
        apply fnmatch_xlsx_name in Em. destruct Em as [stem Em].
        now apply H in Em. }
      now rewrite Hf, andb_false_r. }
  unfold load_all_excels. now rewrite E.
Qed.

(** A lock file that cannot be read, between two workbooks. *)
Lemma other_files_are_ignored_witness :
  (startswith "~$jan.xlsx" "~$" = true \/
   startswith "~$jan.xlsx" "." = true \/
   (forall stem, "~$jan.xlsx" <> stem ++ ".xlsx")) /\
  load_all_excels
    [ {| name := "empty.xlsx"; read_excel := Some header_only |};
      {| name := "~$jan.xlsx"; read_excel := None |};
      {| name := "jan.xlsx"; read_excel := Some one_alarm |} ] =
  load_all_excels
    [ {| name := "empty.xlsx"; read_excel := Some header_only |};
      {| name := "jan.xlsx"; read_excel := Some one_alarm |} ].
Proof.
  assert (H : startswith "~$jan.xlsx" "~$" = true \/
              startswith "~$jan.xlsx" "." = true \/
              (forall stem, "~$jan.xlsx" <> stem ++ ".xlsx"))
    by (left; reflexivity).
  split; [exact H|].
  exact (@other_files_are_ignored
           [ {| name := "empty.xlsx"; read_excel := Some header_only |} ]
           [ {| name := "jan.xlsx"; read_excel := Some one_alarm |} ]
           {| name := "~$jan.xlsx"; read_excel := None |} H).
Defined.

(** ** Ingestion: the frame loaded *)

Lemma rstrip_cons (c : ascii) (s : string) :
  is_space c = false -> rstrip (String c s) = String c (rstrip s).
Proof. intros H. cbn [rstrip]. rewrite H. now destruct (rstrip s). Qed.

Lemma rstrip_step (c : ascii) (s : string) :
  rstrip (String c s) =
  match rstrip s with
  | EmptyString => if is_space c then EmptyString else String c EmptyString
  | r => String c r
  end.
Proof. reflexivity. Qed.

Lemma rstrip_idem (s : string) : rstrip (rstrip s) = rstrip s.
Proof.
  induction s as [|c s IH]; [reflexivity|].
  rewrite rstrip_step. destruct (rstrip s) as [|c' r] eqn:E.
  - destruct (is_space c) eqn:Ec; [reflexivity|].
    rewrite rstrip_step. cbn [rstrip]. now rewrite Ec.
  - rewrite rstrip_step, IH. reflexivity.
Qed.

Lemma lstrip_head (s : string) :
  lstrip s = EmptyString \/
  exists c t, lstrip s = String c t /\ is_space c = false.
Proof.
  induction s as [|c s IH]; [now left|].
  cbn [lstrip]. destruct (is_space c) eqn:Ec; [exact IH|].
  right. now exists c, s.
Qed.

Lemma strip_idem (s : string) : strip (strip s) = strip s.
Proof.
  unfold strip. destruct (lstrip_head s) as [E|[c [t [E Hc]]]]; rewrite E.
  - reflexivity.
  - rewrite (@rstrip_cons c t Hc). cbn [lstrip]. rewrite Hc.
    rewrite <- (@rstrip_cons c t Hc). apply rstrip_idem.
Qed.

Lemma add_columns_In (c : string) (acc cols : list string) :
  In c (add_columns acc cols) <-> In c acc \/ In c cols.
Proof.
  revert acc. induction cols as [|c0 cols IH]; intros acc; cbn [add_columns].
  - simpl. tauto.
  - destruct (existsb (String.eqb c0) acc) eqn:E.
    + apply seen_spec in E. rewrite IH. simpl. split.
      * intros [H|H]; auto.
      * intros [H|[<-|H]]; auto.
    + rewrite IH, in_app_iff. simpl. tauto.
Qed.

Lemma union_columns_In (c : string) (dfs : list DataFrame) (acc : list string) :
  In c (fold_left (fun acc df => add_columns acc (columns df)) dfs acc) <->
  In c acc \/ exists df, In df dfs /\ In c (columns df).
Proof.
  revert acc. induction dfs as [|df dfs IH]; intros acc; cbn [fold_left].
  - split; [auto | intros [H|[df [[] _]]]; exact H].
  - rewrite IH, add_columns_In. split.
    + intros [[H|H]|[df' [H1 H2]]]; auto.
      * right. exists df. split; [now left | exact H].
      * right. exists df'. split; [now right | exact H2].
    + intros [H|[df' [[<-|H1] H2]]]; auto.
      right. now exists df'.
Qed.

Lemma add_columns_distinct (acc cols : list string) :
  NoDup (acc ++ cols) -> add_columns acc cols = (acc ++ cols)%list.
Proof.
  revert acc. induction cols as [|c cols IH]; intros acc Hnd;
    cbn [add_columns].
  - now rewrite app_nil_r.
  - assert (Hc : existsb (String.eqb c) acc = false).
    { destruct (existsb (String.eqb c) acc) eqn:E; trivial.
      apply seen_spec in E. apply NoDup_remove_2 in Hnd.
      exfalso. apply Hnd. apply in_app_iff. now left. }
    rewrite Hc, IH; rewrite <- app_assoc; [reflexivity | exact Hnd].
Qed.

Lemma reindex_own_labels (cols : list string) (row : list (option value)) :
  NoDup cols -> List.length row = List.length cols ->
  map (fun c => lookup_cell c cols row) cols = row.
Proof.
  intros Hnd. revert row.
  induction Hnd as [|c cols Hc Hnd IH]; intros row Hlen.
  - destruct row; [reflexivity | discriminate].
  - destruct row as [|v row]; [discriminate|].
    cbn [map lookup_cell]. rewrite String.eqb_refl. f_equal.
    transitivity (map (fun c' => lookup_cell c' cols row) cols);
      [|apply IH; simpl in Hlen; lia].
    apply map_ext_in. intros c' Hc'. cbn [lookup_cell].
    destruct (String.eqb c c') eqn:E; trivial.
    apply String.eqb_eq in E. subst. contradiction.
Qed.

Lemma map_fixed {A} (g : A -> A) (l : list A) :
  (forall a, In a l -> g a = a) -> map g l = l.
Proof.
  induction l as [|a l IH]; intros H; simpl; trivial.
  rewrite (H a (or_introl eq_refl)), IH; trivial.
  intros b Hb. apply H. now right.
Qed.

Lemma add_columns_known (acc cols : list string) :
  (forall c, In c cols -> In c acc) -> add_columns acc cols = acc.
Proof.
  induction cols as [|c cols IH]; intros H; cbn [add_columns]; trivial.
  assert (Hc : existsb (String.eqb c) acc = true).
  { apply seen_spec. apply H. now left. }
  rewrite Hc. apply IH. intros c' Hc'. apply H. now right.
Qed.

Lemma union_same_labels (cols : list string) (rest : list DataFrame) :
  (forall df, In df rest -> columns df = cols) ->
  fold_left (fun acc df => add_columns acc (columns df)) rest cols = cols.
Proof.
  induction rest as [|df rest IH]; intros H; cbn [fold_left]; trivial.
  rewrite add_columns_known.
  - apply IH. intros d Hd. apply H. now right.
  - intros c Hc. rewrite (H df (or_introl eq_refl)) in Hc. exact Hc.
Qed.

Lemma flat_map_ext_in {A B} (f g : A -> list B) (l : list A) :
  (forall a, In a l -> f a = g a) -> flat_map f l = flat_map g l.
Proof.
  induction l as [|a l IH]; intros H; simpl; trivial.
  rewrite (H a (or_introl eq_refl)), IH; trivial.
  intros b Hb. apply H. now right.
Qed.

Lemma reindex_own_frame (df : DataFrame) :
  NoDup (columns df) -> well_formed df ->
  map (reindex (columns df) df) (data df) = data df.
Proof.
  intros Hnd Hwf. apply map_fixed. intros row Hrow.
  unfold reindex. apply reindex_own_labels; trivial.
  unfold well_formed in Hwf. rewrite Forall_forall in Hwf. now apply Hwf.
Qed.

Lemma aligned_rows_reindex (cols : list string) (df : DataFrame) :
  NoDup (columns df) -> well_formed df ->
  aligned_rows cols df = map (reindex cols df) (data df).
Proof.
  intros Hnd Hwf. unfold aligned_rows.
  destruct (labels_eqb (columns df) cols) eqn:E; trivial.
  apply labels_eqb_eq in E. subst cols.
  symmetry. now apply reindex_own_frame.
Qed.

(** The concatenation of frames with distinct labels: the union of the
    labels, and every row reindexed to it. *)
Lemma concat_distinct (dfs : list DataFrame) :
  dfs <> [] ->
  (forall df, In df dfs -> NoDup (columns df) /\ well_formed df) ->
  concat dfs =
  inr {| columns := union_columns dfs;
         data := flat_map (fun df => map (reindex (union_columns dfs) df)
                                         (data df)) dfs |}.
Proof.
  destruct dfs as [|df rest]; [congruence|]. intros _ Hall.
  unfold concat.
  destruct (forallb (fun df' => labels_eqb (columns df') (columns df)) rest)
    eqn:Esame.
  - assert (Hcols : forall d, In d (df :: rest) -> columns d = columns df).
    { intros d [<-|Hd]; [reflexivity|].
      rewrite forallb_forall in Esame. now apply labels_eqb_eq, Esame. }
    assert (Hunion : union_columns (df :: rest) = columns df).
    { unfold union_columns. cbn [fold_left].
      rewrite (@add_columns_distinct [] (columns df))
        by (cbn [app]; apply Hall; now left).
      cbn [app]. apply union_same_labels. intros d Hd. apply Hcols. now right. }
    rewrite Hunion. f_equal. f_equal.
    apply flat_map_ext_in. intros d Hd.
    destruct (Hall d Hd) as [Hnd Hwf].
    rewrite <- (Hcols d Hd). symmetry. now apply reindex_own_frame.
  - assert (Hdup : existsb (fun df' => has_duplicates (columns df'))
                     (df :: rest) = false).
    { destruct (existsb (fun df' => has_duplicates (columns df')) (df :: rest))
        eqn:E; trivial.
      apply existsb_exists in E. destruct E as [d [Hd E]].
      destruct (Hall d Hd) as [Hnd _].
      apply has_duplicates_spec in Hnd. congruence. }
    rewrite Hdup. f_equal. f_equal.
    apply flat_map_ext_in. intros d Hd.
    destruct (Hall d Hd) as [Hnd Hwf]. now apply aligned_rows_reindex.
Qed.

(** What a successful load of workbooks with distinct labels returns. *)
Lemma load_all_excels_inr (folder : list File) (out : DataFrame) :
  (forall f df, In f folder -> read_excel f = Some df -> well_formed df) ->
  (forall f df, In f folder -> read_excel f = Some df ->
                NoDup (map strip (columns df))) ->
  load_all_excels folder = inr out ->
  let df_list := contentful (valid_files folder) in
  columns out = union_columns df_list /\
  data out =
    flat_map (fun df => map (reindex (union_columns df_list) df) (data df))
      df_list.
Proof.
  intros Hwf Hdistinct Hout.
  assert (Hwf' : forall f df, In f (valid_files folder) ->
                   read_excel f = Some df -> well_formed df).
  { intros f df Hin. apply Hwf. now apply valid_files_spec in Hin. }
  unfold load_all_excels in Hout.
  destruct (existsb unreadable (valid_files folder)) eqn:Hr.
  - destruct (@read_files_unreadable (valid_files folder) [] Hr) as [e He].
    rewrite He in Hout. discriminate.
  - rewrite (@read_files_readable (valid_files folder) [] Hwf' Hr) in Hout.
    cbn [app] in Hout.
    assert (Hne : contentful (valid_files folder) <> []).
    { intros E. rewrite E in Hout. discriminate. }
    rewrite concat_distinct in Hout; trivial.
    + inversion Hout; subst. now split.
    + intros df' Hdf'. unfold contentful in Hdf'.
      apply in_flat_map in Hdf'. destruct Hdf' as [f [Hf Hin]].
      destruct (read_excel f) as [df|] eqn:E; [|contradiction].
      destruct (has_content df); [|contradiction].
      destruct Hin as [<-|[]].
      assert (Hfolder : In f folder) by now apply valid_files_spec in Hf.
      split.
      * exact (Hdistinct f df Hfolder E).
      * unfold well_formed, strip_columns. cbn [columns data].
        rewrite length_map. exact (Hwf f df Hfolder E).
Qed.

Lemma contentful_In (files : list File) (df' : DataFrame) :
  In df' (contentful files) <->
  exists f df, In f files /\ read_excel f = Some df /\
               has_content df = true /\ df' = strip_columns df.
Proof.
  unfold contentful. rewrite in_flat_map. split.
  - intros [f [Hf Hin]]. destruct (read_excel f) as [df|] eqn:E; [|contradiction].
    destruct (has_content df) eqn:Hc; [|contradiction].
    destruct Hin as [<-|[]]. now exists f, df.
  - intros [f [df (Hf & E & Hc & ->)]]. exists f. split; [exact Hf|].
    rewrite E, Hc. now left.
Qed.

Lemma NoDup_snoc {A} (a : A) (l : list A) :
  NoDup l -> ~ In a l -> NoDup (l ++ [a]).
Proof.
  induction 1 as [|b l Hb Hl IH]; intros Ha; simpl.
  - constructor; [intros [] | constructor].
  - constructor.
    + rewrite in_app_iff. simpl. intros [H|[H|[]]]; [contradiction|].
      apply Ha. now left.
    + apply IH. intros H. apply Ha. now right.
Qed.

Lemma add_columns_NoDup (acc cols : list string) :
  NoDup acc -> NoDup (add_columns acc cols).
Proof.
  revert acc. induction cols as [|c cols IH]; intros acc Hacc;
    cbn [add_columns]; trivial.
  destruct (existsb (String.eqb c) acc) eqn:E; [now apply IH|].
  apply IH, NoDup_snoc; trivial.
  intros H. apply seen_spec in H. congruence.
Qed.

Lemma union_columns_NoDup (dfs : list DataFrame) : NoDup (union_columns dfs).
Proof.
  unfold union_columns.
  assert (H : forall acc, NoDup acc ->
            NoDup (fold_left (fun acc df => add_columns acc (columns df)) dfs acc)).
  { induction dfs as [|df dfs IH]; intros acc Hacc; cbn [fold_left]; trivial.
    now apply IH, add_columns_NoDup. }
  apply H. constructor.
Qed.

(** X15: a folder whose workbooks have distinct labels loads, when it
    loads, to a frame with stripped, distinct labels, the labels of its
    files and no other, a cell for every label in every row, and every row
    of every file with content, the blank rows too. *)
Theorem loaded_frame_shape (folder : list File) (out : DataFrame)
    (Hwf : forall f df, In f folder -> read_excel f = Some df -> well_formed df)
    (Hdistinct : forall f df, In f folder -> read_excel f = Some df ->
                              NoDup (map strip (columns df)))
    (Hout : load_all_excels folder = inr out) :
  Forall (fun c => strip c = c) (columns out) /\
  NoDup (columns out) /\
  (forall c, In c (columns out) <->
     exists f df, In f (valid_files folder) /\ read_excel f = Some df /\
                  has_content df = true /\ In c (map strip (columns df))) /\
  Forall (fun row => List.length row = List.length (columns out)) (data out) /\
  List.length (data out) =
    list_sum (map (fun df => List.length (data df))
                (contentful (valid_files folder))).
Proof.
  destruct (load_all_excels_inr folder Hwf Hdistinct Hout) as [Hcols Hdata].
  assert (Hlabels : forall c, In c (columns out) <->
     exists f df, In f (valid_files folder) /\ read_excel f = Some df /\
                  has_content df = true /\ In c (map strip (columns df))).
  { intros c. rewrite Hcols. unfold union_columns. rewrite union_columns_In.
    split.
    - intros [[]|[df' [Hdf Hc]]]. apply contentful_In in Hdf.
      destruct Hdf as [f [df (Hf & E & Hcont & ->)]]. now exists f, df.
    - intros [f [df (Hf & E & Hcont & Hc)]]. right.
      exists (strip_columns df). split; [|exact Hc].
      apply contentful_In. now exists f, df. }
  split; [|split; [|split; [exact Hlabels|split]]].
  - apply Forall_forall. intros c Hc. apply Hlabels in Hc.
    destruct Hc as [f [df (_ & _ & _ & Hc)]].
    apply in_map_iff in Hc. destruct Hc as [c0 [<- _]]. apply strip_idem.
  - rewrite Hcols. apply union_columns_NoDup.
  - apply Forall_forall. intros row Hrow. rewrite Hdata in Hrow.
    apply in_flat_map in Hrow. destruct Hrow as [df [_ Hrow]].
    apply in_map_iff in Hrow. destruct Hrow as [row0 [<- _]].
    unfold reindex. now rewrite length_map, Hcols.
  - rewrite Hdata, length_flat_map. f_equal. apply map_ext.
    intros df. apply length_map.
Qed.

(** The folder of a header-only workbook, a lock file, a text file and a
    workbook of one alarm loads to one row under stripped labels. *)
Lemma loaded_frame_shape_witness :
  (forall f df, In f folder_mixed -> read_excel f = Some df -> well_formed df) /\
  (forall f df, In f folder_mixed -> read_excel f = Some df ->
                NoDup (map strip (columns df))) /\
  load_all_excels folder_mixed =
    inr {| columns := ["Section"; "Alert Time"]; data := data one_alarm |} /\
  Forall (fun c => strip c = c) ["Section"; "Alert Time"].
Proof.
  assert (H : forall f df, In f folder_mixed -> read_excel f = Some df ->
                           well_formed df).
  { intros f df [<-|[<-|[<-|[<-|[]]]]] E; inversion E; subst;
      unfold well_formed; simpl; repeat constructor. }
  assert (D : forall f df, In f folder_mixed -> read_excel f = Some df ->
                           NoDup (map strip (columns df))).
  { intros f df [<-|[<-|[<-|[<-|[]]]]] E; inversion E; subst;
      (constructor; [intros [E'|[]]; discriminate E'|]);
      (constructor; [intros []|constructor]). }
  assert (E : load_all_excels folder_mixed =
              inr {| columns := ["Section"; "Alert Time"];
                     data := data one_alarm |}) by reflexivity.
  split; [exact H|]. split; [exact D|]. split; [exact E|].
  exact (proj1 (@loaded_frame_shape folder_mixed _ H D E)).
Defined.

Lemma lookup_cell_map (c : string) (cols : list string)
    (f : string -> option value) :
  In c cols -> lookup_cell c cols (map f cols) = f c.
Proof.
  induction cols as [|c0 cols IH]; intros Hin; [contradiction|].
  cbn [map lookup_cell]. destruct (String.eqb c0 c) eqn:E.
  - apply String.eqb_eq in E. now subst.
  - destruct Hin as [->|Hin]; [now rewrite String.eqb_refl in E | now apply IH].
Qed.

Lemma lookup_cell_missing (c : string) (labels : list string)
    (row : list (option value)) :
  ~ In c labels -> lookup_cell c labels row = None.
Proof.
  revert row. induction labels as [|l labels IH]; intros row Hc;
    [reflexivity|].
  destruct row as [|v row]; [reflexivity|]. cbn [lookup_cell].
  destruct (String.eqb l c) eqn:E.
  - apply String.eqb_eq in E. subst. exfalso. apply Hc. now left.
  - apply IH. intros H. apply Hc. now right.
Qed.

(** X16: concatenation keeps the cells that are not integers and fills
    the gaps with nulls: for a row of a file with content, of workbooks
    with distinct labels, the loaded frame has a row that holds, under
    every label of the file, the text, float, timestamp or null the file
    held there, and a null under every label the file lacks. *)
Theorem loaded_cells (folder : list File) (out : DataFrame)
    (f : File) (df : DataFrame) (row : list (option value))
    (Hwf : forall f df, In f folder -> read_excel f = Some df -> well_formed df)
    (Hdistinct : forall f df, In f folder -> read_excel f = Some df ->
                              NoDup (map strip (columns df)))
    (Hout : load_all_excels folder = inr out)
    (Hf : In f (valid_files folder)) (Hdf : read_excel f = Some df)
    (Hcontent : has_content df = true) (Hrow : In row (data df)) :
  exists loaded,
    In loaded (data out) /\
    (forall c v, In c (map strip (columns df)) ->
       lookup_cell c (map strip (columns df)) row = v -> not_integer v ->
       lookup_cell c (columns out) loaded = v) /\
    (forall c, ~ In c (map strip (columns df)) ->
       lookup_cell c (columns out) loaded = None).
Proof.
  exists (reindex (columns out) (strip_columns df) row).
  destruct (load_all_excels_inr folder Hwf Hdistinct Hout) as [Hcols Hdata].
  assert (Hin : In (strip_columns df) (contentful (valid_files folder))).
  { apply contentful_In. now exists f, df. }
  split; [|split].
  - rewrite Hdata. apply in_flat_map. exists (strip_columns df).
    split; [exact Hin|]. rewrite Hcols.
    apply in_map_iff. now exists row.
  - intros c v Hc Hv _. unfold reindex.
    rewrite lookup_cell_map; [exact Hv|].
    rewrite Hcols. unfold union_columns. apply union_columns_In. right.
    now exists (strip_columns df).
  - intros c Hc. unfold reindex.
    destruct (in_dec string_dec c (columns out)) as [Hc'|Hc'].
    + rewrite lookup_cell_map by exact Hc'. now apply lookup_cell_missing.
    + now apply lookup_cell_missing.
Qed.

(** Two workbooks of different layouts: the loaded frame has a row with the
    section and the position of the row of the second workbook, and a null
    alert time. *)
Lemma loaded_cells_witness :
  load_all_excels folder_two_layouts =
    inr {| columns := ["Section"; "Alert Time"; "LPG . No."];
           data := [[Some (VCell (CStr "A"));
                     Some (VTimestamp (at_time jan_1_2024 7 0 0)); None];
                    [Some (VCell (CStr "B")); None;
                     Some (VCell (CStr "41+200"))];
                    [None; None; None]] |} /\
  exists loaded,
    In loaded
      [[Some (VCell (CStr "A"));
        Some (VTimestamp (at_time jan_1_2024 7 0 0)); None];
       [Some (VCell (CStr "B")); None; Some (VCell (CStr "41+200"))];
       [None; None; None]] /\
    lookup_cell "LPG . No." ["Section"; "Alert Time"; "LPG . No."] loaded =
      Some (VCell (CStr "41+200")) /\
    lookup_cell "Alert Time" ["Section"; "Alert Time"; "LPG . No."] loaded =
      None.
Proof.
  assert (H : forall f df, In f folder_two_layouts -> read_excel f = Some df ->
                           well_formed df).
  { intros f df [<-|[<-|[]]] E; inversion E; subst;
      unfold well_formed; simpl; repeat constructor. }
  assert (D : forall f df, In f folder_two_layouts -> read_excel f = Some df ->
                           NoDup (map strip (columns df))).
  { intros f df [<-|[<-|[]]] E; inversion E; subst;
      (constructor; [intros [E'|[]]; discriminate E'|]);
      (constructor; [intros []|constructor]). }
  assert (E : load_all_excels folder_two_layouts =
    inr {| columns := ["Section"; "Alert Time"; "LPG . No."];
           data := [[Some (VCell (CStr "A"));
                     Some (VTimestamp (at_time jan_1_2024 7 0 0)); None];
                    [Some (VCell (CStr "B")); None;
                     Some (VCell (CStr "41+200"))];
                    [None; None; None]] |}) by reflexivity.
  split; [exact E|].
  destruct (@loaded_cells folder_two_layouts _
              {| name := "feb.xlsx"; read_excel := Some feb_alarms |}
              feb_alarms
              [Some (VCell (CStr "B")); Some (VCell (CStr "41+200"))]
              H D E (or_intror (or_introl eq_refl)) eq_refl eq_refl
              (or_introl eq_refl)) as (loaded & Hin & Hkept & Hnull).
  exists loaded. split; [exact Hin|]. split.
  - apply (Hkept "LPG . No." _ (or_intror (or_introl eq_refl)) eq_refl).
    intros z Hz. discriminate Hz.
  - apply Hnull. intros [Hc|[Hc|[]]]; discriminate Hc.
Defined.

(** X17: a folder with one workbook of content and distinct labels loads
    to the rows of that workbook as they are, under its stripped labels. *)
Theorem single_workbook_loads_as_is (f : File) (df : DataFrame)
    (Hf : valid_files [f] = [f]) (Hdf : read_excel f = Some df)
    (Hwf : well_formed df) (Hcontent : has_content df = true)
    (Hdistinct : NoDup (map strip (columns df))) :
  load_all_excels [f] = inr (strip_columns df).
Proof.
  assert (Hwf' : forall f' df', In f' [f] -> read_excel f' = Some df' ->
                                well_formed df').
  { intros f' df' [<-|[]] E. congruence. }
  assert (Hr : existsb unreadable [f] = false).
  { unfold unreadable, isnull. simpl. now rewrite Hdf. }
  unfold load_all_excels. rewrite Hf.
  rewrite (@read_files_readable [f] [] Hwf' Hr).
  cbn [app contentful flat_map]. rewrite Hdf, Hcontent.
  cbn [app concat forallb flat_map]. rewrite app_nil_r.
  reflexivity.
Qed.

(** The workbook of one alarm, alone in its folder. *)
Lemma single_workbook_loads_as_is_witness :
  valid_files [ {| name := "jan.xlsx"; read_excel := Some one_alarm |} ] =
    [ {| name := "jan.xlsx"; read_excel := Some one_alarm |} ] /\
  well_formed one_alarm /\ has_content one_alarm = true /\
  NoDup (map strip (columns one_alarm)) /\
  load_all_excels [ {| name := "jan.xlsx"; read_excel := Some one_alarm |} ] =
    inr (strip_columns one_alarm).
Proof.
  assert (Hw : well_formed one_alarm)
    by (unfold well_formed; simpl; repeat constructor).
  assert (Hd : NoDup (map strip (columns one_alarm))).
  { constructor; [intros [E'|[]]; discriminate E'|].
    constructor; [intros []|constructor]. }
  split; [reflexivity|]. split; [exact Hw|]. split; [reflexivity|].
  split; [exact Hd|].
  exact (@single_workbook_loads_as_is
           {| name := "jan.xlsx"; read_excel := Some one_alarm |} one_alarm
           eq_refl eq_refl Hw eq_refl Hd).
Defined.

(** ** The file name of the export *)

Lemma digit_inj (a b : Z) :
  0 <= a <= 9 -> 0 <= b <= 9 -> digit a = digit b -> a = b.
Proof.
  intros Ha Hb E. unfold digit in E.
  apply (f_equal N_of_ascii) in E.
  rewrite !N_ascii_embedding in E by lia. lia.
Qed.

(** X18: the date in the file name is ten characters long and tells the
    date: two dates of the range of pandas with the same text are the same
    date. *)
Theorem date_text_tells_the_date (d1 d2 : date)
    (H1 : valid_date d1) (H2 : valid_date d2) :
  String.length (strftime_dmY d1) = 10%nat /\
  (strftime_dmY d1 = strftime_dmY d2 -> d1 = d2).
Proof.
  rewrite !strftime_dmY_spec by assumption. split; [reflexivity|].
  destruct d1 as [y1 m1 a1], d2 as [y2 m2 a2].
  unfold valid_date in H1, H2. simpl in H1, H2.
  unfold DD_MM_YYYY. simpl. intros E.
  injection E as Ea Eb Ec Ed Ee Ef Eg Eh.
  apply digit_inj in Ea, Eb, Ec, Ed, Ee, Ef, Eg, Eh;
    try (Z.div_mod_to_equations; lia).
  f_equal; Z.div_mod_to_equations; lia.
Qed.

(** The first and the second of January 2024. *)
Lemma date_text_tells_the_date_witness :
  valid_date jan_1_2024 /\ valid_date jan_2_2024 /\
  String.length (strftime_dmY jan_1_2024) = 10%nat.
Proof.
  assert (H1 : valid_date jan_1_2024) by (unfold valid_date; simpl; lia).
  assert (H2 : valid_date jan_2_2024) by (unfold valid_date; simpl; lia).
  split; [exact H1|]. split; [exact H2|].
  exact (proj1 (date_text_tells_the_date H1 H2)).
Defined.

(** ** The hours of Day and Night alarms *)

Lemma alarm_type_hours (r : RawRow) (h : Z) :
  valid_alert_time r -> Hour (preprocess r) = Some h ->
  (Alarm_Type (preprocess r) = "Day" -> 6 <= h <= 22) /\
  (Alarm_Type (preprocess r) = "Night" -> h <= 5 \/ 22 <= h).
Proof.
  intros Hvalid. simpl.
  destruct (Alert_Time r) as [t|] eqn:Et; simpl; [|discriminate].
  intros Hh. inversion Hh; subst h. clear Hh.
  specialize (Hvalid t Et).
  pose proof (day_window_test Hvalid) as Hw.
  unfold in_day_window, micros_of_day, time_hms in Hw. simpl in Hw.
  unfold valid_time in Hvalid. unfold Timestamp_hour, Timestamp_time in *.
  destruct (time_le (time_hm 6 0) (ts_time t) &&
            time_le (ts_time t) (time_hm 22 0)).
  - assert (Hin := proj1 Hw eq_refl). split; [intros; lia | discriminate].
  - split; [discriminate|]. intros _.
    destruct (Z_le_gt_dec (hour (ts_time t)) 5) as [H5|H5]; [now left|].
    destruct (Z_le_gt_dec 22 (hour (ts_time t))) as [H22|H22]; [now right|].
    exfalso. assert (Hin : false = true) by (apply Hw; lia). discriminate.
Qed.

(** X19: the hour histogram of one day has no bar outside the hours of the
    alarm type asked for: none before hour 6 or after hour 22 for Day,
    none from hour 6 to hour 21 for Night. *)
Theorem hour_bars_by_alarm_type (rows : list RawRow) (day : date)
    (section : string) (Hvalid : Forall valid_alert_time rows) :
  let df_raw := map preprocess rows in
  (forall h, h < 6 \/ 22 < h ->
     bar_height (samples (update_alarm_count_graph df_raw "Day" day day section))
       (AHour h) = 0) /\
  (forall h, 6 <= h <= 21 ->
     bar_height (samples (update_alarm_count_graph df_raw "Night" day day section))
       (AHour h) = 0).
Proof.
  intros df_raw.
  assert (Hbar : forall a h,
            (forall r, In r (filtered_rows df_raw a day day section) ->
                       at_hour h r = false) ->
            bar_height (samples (update_alarm_count_graph df_raw a day day section))
              (AHour h) = 0).
  { intros a h Hnone. unfold update_alarm_count_graph.
    rewrite date_eqb_refl. cbn [samples].
    rewrite bar_height_hours, (filter_all_false _ _ Hnone). reflexivity. }
  assert (Hrow : forall a r, In r (filtered_rows df_raw a day day section) ->
            Alarm_Type r = a /\
            exists r0, In r0 rows /\ r = preprocess r0).
  { intros a r Hr. apply filter_In in Hr. destruct Hr as [Hr Hm].
    apply mask_spec in Hm. destruct Hm as (Ha & _ & _).
    apply in_map_iff in Hr. destruct Hr as [r0 [<- Hr0]].
    split; [exact Ha | now exists r0]. }
  rewrite Forall_forall in Hvalid.
  split; intros h Hh; apply Hbar; intros r Hr;
    destruct (Hrow _ r Hr) as [Ha [r0 [Hr0 ->]]];
    unfold at_hour;
    destruct (Hour (preprocess r0)) as [k|] eqn:Ek; trivial;
    destruct (@alarm_type_hours r0 k (Hvalid r0 Hr0) Ek) as [Hday Hnight];
    apply Z.eqb_neq.
  - specialize (Hday Ha). lia.
  - specialize (Hnight Ha). lia.
Qed.

(** Three alarms of one day, at 05:00, 05:30 and 07:00. *)
Lemma hour_bars_by_alarm_type_witness :
  Forall valid_alert_time [alarm_0500; alarm_0530; alarm_0700] /\
  bar_height
    (samples (update_alarm_count_graph
                (map preprocess [alarm_0500; alarm_0530; alarm_0700])
                "Day" jan_1_2024 jan_1_2024 "A")) (AHour 5) = 0.
Proof.
  assert (H : Forall valid_alert_time [alarm_0500; alarm_0530; alarm_0700]).
  { apply Forall_cons; [|apply Forall_cons; [|apply Forall_cons;
      [|apply Forall_nil]]];
      intros t E; inversion E; subst; unfold valid_time; simpl; lia. }
  split; [exact H|].
  assert (H5 : 5 < 6 \/ 22 < 5) by (left; lia).
  exact (proj1 (@hour_bars_by_alarm_type [alarm_0500; alarm_0530; alarm_0700]
                  jan_1_2024 "A" H) 5 H5).
Defined.

(** ** Ingestion: the errors *)

Lemma read_files_raises (files : list File) (df_list : list DataFrame)
    (e : exn) :
  read_files files df_list = inl e ->
  exists before f after,
    files = (before ++ f :: after)%list /\
    existsb unreadable before = false /\
    read_excel f = None /\ e = ReadError (name f).
Proof.
  revert df_list. induction files as [|f0 files IH]; intros df_list He.
  - discriminate.
  - cbn [read_files] in He. destruct (read_excel f0) as [df|] eqn:E0.
    + assert (Hrest : exists acc, read_files files acc = inl e).
      { destruct (negb (empty (dropna_all
                   {| columns := map strip (columns df); data := data df |})));
          eexists; exact He. }
      destruct Hrest as [acc Hacc].
      destruct (IH acc Hacc) as (before & f & after & -> & Hb & Hf & ->).
      exists (f0 :: before), f, after. split; [reflexivity|].
      split; [|now split].
      cbn [existsb]. unfold unreadable at 1, isnull. now rewrite E0.
    + inversion He; subst. exists [], f0, files. now repeat split.
Qed.

Lemma read_files_first_unreadable (before after : list File) (f : File)
    (df_list : list DataFrame) :
  existsb unreadable before = false -> read_excel f = None ->
  read_files (before ++ f :: after) df_list = inl (ReadError (name f)).
Proof.
  revert df_list. induction before as [|f0 before IH]; intros df_list Hb Hf.
  - cbn [app read_files]. now rewrite Hf.
  - cbn [existsb] in Hb. apply orb_false_iff in Hb. destruct Hb as [H0 Hb].
    unfold unreadable, isnull in H0. cbn [app read_files].
    destruct (read_excel f0) as [df|]; [|discriminate].
    destruct (negb (empty (dropna_all
                {| columns := map strip (columns df); data := data df |})));
      now apply IH.
Qed.

(** X20: the two errors of ingestion.  The read error of a workbook is
    raised exactly for the first eligible file that cannot be read,
    whatever the files after it hold; the error of an empty concatenation
    is raised exactly when every eligible file can be read and none has
    content. *)
Theorem load_all_excels_errors (folder : list File)
    (Hwf : forall f df, In f folder -> read_excel f = Some df -> well_formed df) :
  (forall n, load_all_excels folder = inl (ReadError n) <->
     exists before f after,
       valid_files folder = (before ++ f :: after)%list /\
       existsb unreadable before = false /\
       read_excel f = None /\ name f = n) /\
  (forall msg, load_all_excels folder = inl (ValueError msg) <->
     msg = "No objects to concatenate" /\
     forall f, In f (valid_files folder) ->
       exists df, read_excel f = Some df /\ entirely_empty df).
Proof.
  assert (Hwf' : forall f df, In f (valid_files folder) ->
                   read_excel f = Some df -> well_formed df).
  { intros f df Hin. apply Hwf. now apply valid_files_spec in Hin. }
  unfold load_all_excels. split.
  - intros n. split.
    + destruct (read_files (valid_files folder) []) as [e|dfs] eqn:Er.
      * intros He. inversion He; subst e.
        destruct (read_files_raises _ _ Er) as (before & f & after & E & Hb & Hf & En).
        inversion En. now exists before, f, after.
      * intros He. apply concat_raises in He.
        destruct He as [[_ He]|(_ & _ & He)]; discriminate He.
    + intros (before & f & after & E & Hb & Hf & <-).
      now rewrite E, (read_files_first_unreadable before after f [] Hb Hf).
  - intros msg. split.
    + destruct (existsb unreadable (valid_files folder)) eqn:Hr.
      * destruct (@read_files_unreadable (valid_files folder) [] Hr) as [e He].
        rewrite He. intros Hv. inversion Hv; subst e.
        destruct (read_files_raises _ _ He) as (_ & f & _ & _ & _ & _ & En).
        discriminate En.
      * rewrite (@read_files_readable (valid_files folder) [] Hwf' Hr).
        cbn [app]. intros Hv. apply concat_raises in Hv.
        destruct Hv as [[Ec Hv]|(_ & _ & Hv)]; [|discriminate Hv].
        inversion Hv. split; [reflexivity|].
        intros f Hf. destruct (read_excel f) as [df|] eqn:Ef.
        -- exists df. split; [reflexivity|].
           exact (proj1 (contentful_nil (valid_files folder)) Ec f df Hf Ef).
        -- exfalso.
           assert (Hu : existsb unreadable (valid_files folder) = true).
           { apply unreadable_exists. now exists f. }
           congruence.
    + intros [-> Hall].
      assert (Hr : existsb unreadable (valid_files folder) = false).
      { destruct (existsb unreadable (valid_files folder)) eqn:Hr; trivial.
        apply unreadable_exists in Hr. destruct Hr as [f [Hf Hn]].
        destruct (Hall f Hf) as [df [Hdf _]]. congruence. }
      rewrite (@read_files_readable (valid_files folder) [] Hwf' Hr).
      cbn [app].
      assert (Ec : contentful (valid_files folder) = []).
      { apply contentful_nil. intros f df Hf Hdf.
        destruct (Hall f Hf) as [df' [Hdf' He]].
        assert (E : df = df') by congruence. now rewrite E. }
      now rewrite Ec.
Qed.

(** A broken workbook after an empty one and before a good one: the load
    raises the read error of the broken workbook. *)
Lemma load_all_excels_errors_witness :
  (forall f df, In f folder_broken -> read_excel f = Some df -> well_formed df) /\
  load_all_excels folder_broken = inl (ReadError "broken.xlsx").
Proof.
  assert (H : forall f df, In f folder_broken -> read_excel f = Some df ->
                           well_formed df).
  { intros f df [<-|[<-|[<-|[]]]] E; inversion E; subst;
      unfold well_formed; simpl; repeat constructor. }
  split; [exact H|].
  apply (proj1 (@load_all_excels_errors folder_broken H)).
  exists [ {| name := "empty.xlsx"; read_excel := Some header_only |} ],
         {| name := "broken.xlsx"; read_excel := None |},
         [ {| name := "jan.xlsx"; read_excel := Some one_alarm |} ].
  repeat split.
Defined.
